(** * Schedulers of pogom: hex-grid scan plans and the queue refill protocol

    A shallow embedding of [pogom/schedulers.py]: the base scheduler's queue
    handling, the [HexSearch] spiral plan generator with its cached plan,
    and the [SpawnOnlyHexSearch] filter, followed by the properties of the
    scheduler design that were checked against them. *)

From Stdlib Require Import String ZArith List Lia Bool Floats Permutation Sorted.
From Equations Require Import Equations.
Import ListNotations.

#[local] Set Warnings "-inexact-float".
#[local] Open Scope Z_scope.

(** ** Data model *)

(** A [lat, lng] pair, the shape [get_new_coords] consumes and returns. *)
Definition latlng : Type := (float * float)%type.

(** A scan location [(latitude, longitude, altitude)]. *)
Record location : Type := mkLocation
  { latitude : float; longitude : float; altitude : Z }.

(** A queue item [(step, (lat, lng, alt), appears_seconds, disappears_seconds)]. *)
Record ScanItem : Type := mkScanItem
  { step : Z;
    item_location : location;
    appears_seconds : Z;
    disappears_seconds : Z }.

(** The collaborators imported from outside [schedulers.py]: the geodesic
    destination point of [.transform], the bounding box and the spawnpoint
    query of [.models], and [geopy.distance.distance(a, b).meters]. *)
Class External : Type := mkExternal
  { get_new_coords : latlng -> float -> Z -> latlng;
    hex_bounds : location -> Z -> float * float * float * float;
    get_spawnpoints : float -> float -> float -> float -> list latlng;
    distance_meters : location -> latlng -> float }.

(** ** Python list primitives used by the generator *)

Module Py.

(** Normalisation of a slice bound against a list of length [len]:
    negative bounds count from the end, and everything is clamped. *)
Definition slice_index (len i : Z) : nat :=
  Z.to_nat (if i <? 0 then Z.max (len + i) 0 else Z.min i len).

(** [l[i:]] *)
Definition slice_from {A : Type} (i : Z) (l : list A) : list A :=
  skipn (slice_index (Z.of_nat (length l)) i) l.

(** [l[:j]] *)
Definition slice_to {A : Type} (j : Z) (l : list A) : list A :=
  firstn (slice_index (Z.of_nat (length l)) j) l.

(** [enumerate(l, start)] *)
Fixpoint enumerate {A : Type} (start : Z) (l : list A) : list (Z * A) :=
  match l with
  | [] => []
  | x :: l' => (start, x) :: enumerate (start + 1) l'
  end.

(** [for i in range(n): w = body(w)], for a body that ignores [i]. *)
Definition for_range {S : Type} (n : Z) (body : S -> S) (w : S) : S :=
  Nat.iter (Z.to_nat n) body w.

End Py.

(** ** HexSearch._generate_locations *)

Module HexSearch.

Definition NORTH : Z := 0.
Definition EAST : Z := 90.
Definition SOUTH : Z := 180.
Definition WEST : Z := 270.

(** The two local variables the spiral walk updates: the current position
    [loc] and the list [results] it appends to. *)
Record walk : Type := mkWalk { loc : latlng; results : list location }.

Section Spiral.

Context {E : External}.
Variable step_distance : float.
Variable step_limit : Z.

(** dist between column centers *)
Definition xdist : float := (PrimFloat.sqrt 3 * step_distance)%float.
(** dist between row centers *)
Definition ydist : float := (3 * (step_distance / 2))%float.

(** [loc = get_new_coords(loc, dist, bearing)] *)
Definition step_to (dist : float) (bearing : Z) (w : walk) : walk :=
  mkWalk (get_new_coords (loc w) dist bearing) (results w).

(** [results.append((loc[0], loc[1], 0))] *)
Definition append_loc (w : walk) : walk :=
  mkWalk (loc w) (results w ++ [mkLocation (fst (loc w)) (snd (loc w)) 0]).

Definition odd_ring (ring : Z) : bool := ring mod 2 =? 1.

(** One pass of the body of the upper [while], [ring += 1] apart. *)
Definition upper_ring (ring : Z) (w : walk) : walk :=
  let w := append_loc (step_to xdist (if odd_ring ring then WEST else EAST) w) in
  let w := Py.for_range ring (fun w =>
             append_loc
               (step_to (xdist / 2)%float (if odd_ring ring then EAST else WEST)
                  (step_to ydist NORTH w))) w in
  let w := Py.for_range ring (fun w =>
             append_loc (step_to xdist (if odd_ring ring then EAST else WEST) w)) w in
  Py.for_range ring (fun w =>
    append_loc
      (step_to (xdist / 2)%float (if odd_ring ring then EAST else WEST)
         (step_to ydist SOUTH w))) w.

(** [while ring < self.step_limit: ...; ring += 1] *)
Equations? upper_part (ring : Z) (w : walk) : walk
  by wf (Z.to_nat (step_limit - ring)) lt :=
  upper_part ring w with Z_lt_dec ring step_limit => {
    | left _ := upper_part (ring + 1) (upper_ring ring w);
    | right _ := w }.
Proof. lia. Qed.

(** One pass of the body of the lower [while], [ring -= 1] apart. *)
Definition lower_ring (ring : Z) (w : walk) : walk :=
  if ring =? 1 then
    append_loc (step_to xdist WEST w)
  else
    let w := Py.for_range (ring - 1) (fun w =>
               append_loc
                 (step_to (xdist / 2)%float (if odd_ring ring then WEST else EAST)
                    (step_to ydist SOUTH w))) w in
    let w := Py.for_range ring (fun w =>
               append_loc (step_to xdist (if odd_ring ring then WEST else EAST) w)) w in
    let w := Py.for_range (ring - 1) (fun w =>
               append_loc
                 (step_to (xdist / 2)%float (if odd_ring ring then WEST else EAST)
                    (step_to ydist NORTH w))) w in
    append_loc (step_to xdist (if odd_ring ring then EAST else WEST) w).

(** [while ring > 0: ...; ring -= 1] *)
Equations? lower_part (ring : Z) (w : walk) : walk
  by wf (Z.to_nat ring) lt :=
  lower_part ring w with Z_gt_dec ring 0 => {
    | left _ := lower_part (ring - 1) (lower_ring ring w);
    | right _ := w }.
Proof. lia. Qed.

(** The list [results] as it stands just before the rotation. *)
Definition spiral (scan_location : location) : list location :=
  let w := mkWalk (latitude scan_location, longitude scan_location)
                  [mkLocation (latitude scan_location) (longitude scan_location) 0] in
  results
    (if step_limit >? 1 then
       let w := upper_part 1 w in
       let ring := step_limit - 1 in
       let w := step_to ydist SOUTH w in
       let w := step_to (xdist / 2)%float (if odd_ring ring then WEST else EAST) w in
       let w := append_loc w in
       lower_part ring w
     else w).

(** The rotation that pulls the last few steps back to the front of the
    list, for a center nugget at the beginning of the scan. *)
Definition rotate (results : list location) : list location :=
  if step_limit >=? 3 then
    if step_limit =? 3 then
      Py.slice_from (-2) results ++ Py.slice_to (-2) results
    else
      Py.slice_from (-7) results ++ Py.slice_to (-7) results
  else results.

(** Add the required appear and disappear times. *)
Definition zeroed (results : list location) : list ScanItem :=
  map (fun sl : Z * location =>
         mkScanItem (fst sl)
           (mkLocation (latitude (snd sl)) (longitude (snd sl)) 0) 0 0)
      (Py.enumerate 1 results).

Definition _generate_locations (scan_location : location) : list ScanItem :=
  zeroed (rotate (spiral scan_location)).

End Spiral.

End HexSearch.

(** ** What a scheduler call leaves behind besides the new state *)

(** The records sent to the logger, and a marker for each time [schedule]
    calls [self._generate_locations()]. *)
Inductive event : Type :=
| LogWarning (msg : string)
| LogDebug (item : ScanItem)
| CallGenerate.

Inductive exn : Type := IndexError.

Definition is_generate (e : event) : bool :=
  match e with CallGenerate => true | _ => false end.

(** How many times the plan generator was entered during a call. *)
Definition generate_calls (evs : list event) : nat :=
  List.length (filter is_generate evs).

(** ** SpawnOnlyHexSearch *)

Module SpawnOnlyHexSearch.

Section Filter.

Context {E : External}.
Variable step_distance : float.
Variable step_limit : Z.

Definition _any_spawnpoints_in_range (coords : location)
    (spawnpoints : list latlng) : bool :=
  existsb (fun x => (distance_meters coords x <=? 70)%float) spawnpoints.

(** The spawnpoints the store returns for the hex bounds of the scan.
    The source collects them into a [set]; the set is only tested for
    emptiness and traversed by [any], and both read the same off the
    list of its members. *)
Definition spawnpoints_of (scan_location : location) : list latlng :=
  let '(n, e, s, w) := hex_bounds scan_location step_limit in
  get_spawnpoints s w n e.

Definition _generate_locations (scan_location : location)
    : list ScanItem * list event :=
  let spawnpoints := spawnpoints_of scan_location in
  let warned :=
    if (List.length spawnpoints =? 0)%nat then
      [LogWarning "No spawnpoints found in the specified area!  (Did you forget to run a normal scan in this area first?)"]
    else [] in
  let locations :=
    HexSearch._generate_locations step_distance step_limit scan_location in
  (filter (fun coords =>
             _any_spawnpoints_in_range (item_location coords) spawnpoints)
          locations,
   warned).

End Filter.

End SpawnOnlyHexSearch.

(** ** The scheduler object *)

Inductive scheduler_class : Type := HexSearchClass | SpawnOnlyHexSearchClass.

(** The fields of [args] the schedulers read. *)
Record Args : Type := mkArgs { no_pokemon : bool; args_step_limit : Z }.

(** A worker queue, oldest item first. *)
Definition queue : Type := list ScanItem.

(** A [HexSearch] (or [SpawnOnlyHexSearch]) instance.  [scan_location] and
    [locations] start as [False], rendered [None].  The [status] list is
    stored by the constructor and read by no method here. *)
Record scheduler : Type := mkScheduler
  { class_of : scheduler_class;
    queues : list queue;
    args : Args;
    scan_location : option location;
    step_distance : float;
    step_limit : Z;
    locations : option (list ScanItem) }.

(** The result of a method call: the object afterwards, what was logged,
    and the exception that ended the call, if any. *)
Record outcome : Type := mkOutcome
  { final : scheduler; events : list event; raised : option exn }.

Definition set_queues (qs : list queue) (s : scheduler) : scheduler :=
  mkScheduler (class_of s) qs (args s) (scan_location s)
              (step_distance s) (step_limit s) (locations s).

Definition set_scan_location (l : option location) (s : scheduler) : scheduler :=
  mkScheduler (class_of s) (queues s) (args s) l
              (step_distance s) (step_limit s) (locations s).

Definition set_locations (p : option (list ScanItem)) (s : scheduler) : scheduler :=
  mkScheduler (class_of s) (queues s) (args s) (scan_location s)
              (step_distance s) (step_limit s) p.

(** [HexSearch.__init__] over [BaseScheduler.__init__]. *)
Definition init (c : scheduler_class) (queues : list queue) (args : Args)
    : scheduler :=
  mkScheduler c queues args None
              (if no_pokemon args then 0.900%float else 0.070%float)
              (args_step_limit args) None.

(** [while True: queue.get_nowait()] until [Empty] is raised. *)
Fixpoint drain (q : queue) : queue :=
  match q with
  | [] => []
  | _ :: q' => drain q'
  end.

(** [BaseScheduler.empty_queues] *)
Definition empty_queues (s : scheduler) : scheduler :=
  set_queues
    (map (fun q : queue => match q with [] => q | _ :: _ => drain q end)
         (queues s))
    s.

(** [HexSearch.location_changed] *)
Definition location_changed (s : scheduler) (scan_location : location)
    : scheduler :=
  let s := set_scan_location (Some scan_location) s in
  let s := empty_queues s in
  set_locations None s.

(** [BaseScheduler.scanning_paused] *)
Definition scanning_paused (s : scheduler) : scheduler := empty_queues s.

(** [BaseScheduler.scanning_unpause] *)
Definition scanning_unpause (s : scheduler) : scheduler := s.

(** [not self.locations]: true of [False] and of the empty list. *)
Definition not_locations (o : option (list ScanItem)) : bool :=
  match o with
  | None => true
  | Some [] => true
  | Some (_ :: _) => false
  end.

Section Schedule.

Context {E : External}.

(** [self._generate_locations()], resolved by the class of [self]. *)
Definition _generate_locations (s : scheduler) (center : location)
    : list ScanItem * list event :=
  match class_of s with
  | HexSearchClass =>
      (HexSearch._generate_locations (step_distance s) (step_limit s) center, [])
  | SpawnOnlyHexSearchClass =>
      SpawnOnlyHexSearch._generate_locations (step_distance s) (step_limit s) center
  end.

(** [for location in self.locations: self.queues[0].put(location); log.debug(...)].
    [self.queues[0]] raises [IndexError] on an empty queue list. *)
Fixpoint put_all (items : list ScanItem) (s : scheduler) (evs : list event)
    : outcome :=
  match items with
  | [] => mkOutcome s evs None
  | location :: rest =>
      match queues s with
      | [] => mkOutcome s evs (Some IndexError)
      | q0 :: qs =>
          put_all rest (set_queues ((q0 ++ [location]) :: qs) s)
                  (evs ++ [LogDebug location])
      end
  end.

(** [HexSearch.schedule] *)
Definition schedule (s : scheduler) : outcome :=
  match scan_location s with
  | None =>
      mkOutcome s
        [LogWarning "Cannot schedule work until scan location has been set"]
        None
  | Some center =>
      if not_locations (locations s) then
        let (plan, logged) := _generate_locations s center in
        put_all plan (set_locations (Some plan) s) (CallGenerate :: logged)
      else
        match locations s with
        | Some plan => put_all plan s []
        | None => mkOutcome s [] None
        end
  end.

End Schedule.

(** ** A planar stand-in for the collaborators

    Used only to run the definitions above on concrete inputs: degrees are
    converted at fixed rates (those of latitude 40), distances are
    Euclidean, and the store is a list filtered by the bounding box. *)

Module Planar.

Definition km_per_deg_lat : float := 111.32%float.
Definition km_per_deg_lng : float := 85.28%float.

Definition get_new_coords (c : latlng) (distance : float) (bearing : Z) : latlng :=
  if bearing =? 0 then (fst c + distance / km_per_deg_lat, snd c)%float
  else if bearing =? 90 then (fst c, snd c + distance / km_per_deg_lng)%float
  else if bearing =? 180 then (fst c - distance / km_per_deg_lat, snd c)%float
  else if bearing =? 270 then (fst c, snd c - distance / km_per_deg_lng)%float
  else c.

Definition hex_bounds (center : location) (steps : Z)
    : float * float * float * float :=
  let c := (latitude center, longitude center) in
  let sp_dist := (0.07 * 2 * PrimFloat.of_uint63 (Uint63.of_Z steps))%float in
  (fst (get_new_coords c sp_dist 0), snd (get_new_coords c sp_dist 90),
   fst (get_new_coords c sp_dist 180), snd (get_new_coords c sp_dist 270)).

Definition distance_meters (a : location) (b : latlng) : float :=
  let dy := ((latitude a - fst b) * km_per_deg_lat)%float in
  let dx := ((longitude a - snd b) * km_per_deg_lng)%float in
  (1000 * PrimFloat.sqrt (dy * dy + dx * dx))%float.

Definition get_spawnpoints (store : list latlng) (s w n e : float)
    : list latlng :=
  filter (fun p => (s <=? fst p)%float && (fst p <=? n)%float
                   && (w <=? snd p)%float && (snd p <=? e)%float) store.

Definition env (store : list latlng) : External :=
  mkExternal get_new_coords hex_bounds (get_spawnpoints store) distance_meters.

End Planar.

(** ** Worked inputs *)

(** The center of the end-to-end scenario. *)
Definition center_40_75 : location := mkLocation 40 (-75) 0.

(** The same point with a non-zero altitude. *)
Definition center_40_75_high : location := mkLocation 40 (-75) 5.

(** The point one column west of [center_40_75] under dense coverage:
    the second point of the spiral. *)
Definition west_neighbour : latlng :=
  Planar.get_new_coords (40, -75)%float (HexSearch.xdist 0.070) HexSearch.WEST.

(** The item the spiral emits second from [center_40_75] under dense
    coverage, as the planar stand-in places it. *)
Definition west_item : ScanItem :=
  mkScanItem 2 (mkLocation (fst west_neighbour) (snd west_neighbour) 0) 0 0.

(** A scheduler of class [c] over one empty queue, dense coverage and step
    limit [n], once [location_changed(center_40_75)] has been called. *)
Definition located (c : scheduler_class) (n : Z) : scheduler :=
  location_changed (init c [[]] (mkArgs false n)) center_40_75.

(** The same scheduler after one call of [schedule], first with the plain
    class and step limit 1, then with the filtering class, step limit 2 and
    a store that knows no spawnpoint. *)
Definition planned_once : scheduler :=
  final (@schedule (Planar.env []) (located HexSearchClass 1)).

Definition filtered_to_nothing : scheduler :=
  final (@schedule (Planar.env []) (located SpawnOnlyHexSearchClass 2)).

(** A scheduler whose center was never set, with one item waiting. *)
Definition never_located : scheduler :=
  init HexSearchClass [[west_item]] (mkArgs false 2).

(** Number of points the walk has appended so far. *)
Definition emitted (w : HexSearch.walk) : Z :=
  Z.of_nat (List.length (HexSearch.results w)).

Definition at_sea_level (l : location) : Prop := altitude l = 0.

(** The plan [schedule] pushes from state [s] when the center is [center]:
    the cached list when [self.locations] is truthy, a fresh one otherwise. *)
Definition plan_to_push {E : External} (s : scheduler) (center : location)
    : list ScanItem :=
  if not_locations (locations s) then fst (_generate_locations s center)
  else match locations s with Some plan => plan | None => [] end.

(** [n] calls of [schedule] in a row, keeping the object only. *)
Definition schedule_times {E : External} (n : nat) (s : scheduler) : scheduler :=
  Nat.iter n (fun s => final (schedule s)) s.

(** The filter's test on a location against a list of spawnpoints, as a
    proposition. *)
Definition has_spawnpoint_within_70m {E : External} (l : location)
    (spawnpoints : list latlng) : Prop :=
  exists p, In p spawnpoints /\ (distance_meters l p <=? 70)%float = true.

(** ** Vocabulary of the further properties *)

(** The bearings the spiral walk passes to [get_new_coords]. *)
Definition cardinal (bearing : Z) : Prop :=
  In bearing [HexSearch.NORTH; HexSearch.EAST; HexSearch.SOUTH; HexSearch.WEST].

(** The distances the spiral walk passes to [get_new_coords]. *)
Definition spiral_distance (step_distance d : float) : Prop :=
  In d [HexSearch.xdist step_distance; HexSearch.ydist step_distance;
        (HexSearch.xdist step_distance / 2)%float].

(** Two sets of collaborators whose [get_new_coords] answer alike on the
    moves of the spiral walk. *)
Definition agree_on_spiral_moves (E1 E2 : External) (step_distance : float)
    : Prop :=
  forall (c : latlng) (d : float) (b : Z),
    cardinal b -> spiral_distance step_distance d ->
    @get_new_coords E1 c d b = @get_new_coords E2 c d b.

(** Display order of two queue items. *)
Definition earlier (a b : ScanItem) : Prop := step a < step b.

(** Two schedulers that differ at most in what their queues hold, in the
    center and in the cached plan. *)
Definition same_setup (s t : scheduler) : Prop :=
  class_of t = class_of s /\ args t = args s /\
  step_distance t = step_distance s /\ step_limit t = step_limit s /\
  List.length (queues t) = List.length (queues s).

(** A located scheduler that was given no queue at all. *)
Definition unqueued : scheduler :=
  location_changed (init HexSearchClass [] (mkArgs false 2)) center_40_75.

(** A scheduler for pokestops and gyms, never located, with stale items
    in both of its queues. *)
Definition stale : scheduler :=
  init SpawnOnlyHexSearchClass [[west_item]; [west_item; west_item]]
       (mkArgs true 3).

(** * Properties *)

(** ** Python slices *)

Lemma slice_rotate_permutation {A : Type} (i : Z) (l : list A) :
  Permutation (Py.slice_from i l ++ Py.slice_to i l) l.
Proof.
  unfold Py.slice_from, Py.slice_to.
  etransitivity; [apply Permutation_app_comm|].
  now rewrite firstn_skipn.
Qed.

Lemma slice_index_last (len k : Z) :
  0 < k -> k <= len -> Py.slice_index len (- k) = Z.to_nat (len - k).
Proof.
  intros Hpos Hk. unfold Py.slice_index.
  destruct (Z.ltb_spec (- k) 0); [|lia].
  f_equal. lia.
Qed.

Lemma slice_rotate_split {A : Type} (k : Z) (l : list A) :
  0 < k -> k <= Z.of_nat (List.length l) ->
  exists front back,
    l = front ++ back /\ Z.of_nat (List.length back) = k /\
    Py.slice_from (- k) l ++ Py.slice_to (- k) l = back ++ front.
Proof.
  intros Hpos Hk.
  exists (Py.slice_to (- k) l), (Py.slice_from (- k) l).
  unfold Py.slice_from, Py.slice_to.
  rewrite slice_index_last by lia.
  rewrite firstn_skipn, length_skipn.
  repeat split; lia.
Qed.

Lemma enumerate_length {A : Type} (l : list A) (start : Z) :
  List.length (Py.enumerate start l) = List.length l.
Proof.
  revert start; induction l as [|x l IH]; intros start; simpl; [reflexivity|].
  now rewrite IH.
Qed.

Lemma enumerate_nth_error {A : Type} (l : list A) (start : Z) (i : nat) (p : Z * A) :
  nth_error (Py.enumerate start l) i = Some p ->
  fst p = start + Z.of_nat i /\ nth_error l i = Some (snd p).
Proof.
  revert start i; induction l as [|x l IH]; intros start i H.
  - destruct i; discriminate.
  - destruct i as [|i]; simpl in H.
    + inversion H; subst; simpl. split; [lia|reflexivity].
    + apply IH in H. destruct H as [H1 H2]. split; [lia|exact H2].
Qed.

Lemma for_range_nonpositive {S : Type} (n : Z) (body : S -> S) (w : S) :
  n <= 0 -> Py.for_range n body w = w.
Proof.
  intros Hn. unfold Py.for_range.
  replace (Z.to_nat n) with 0%nat by lia. reflexivity.
Qed.

Lemma for_range_succ {S : Type} (n : Z) (body : S -> S) (w : S) :
  0 <= n -> Py.for_range (n + 1) body w = body (Py.for_range n body w).
Proof.
  intros Hn. unfold Py.for_range.
  replace (Z.to_nat (n + 1)) with (Datatypes.S (Z.to_nat n)) by lia.
  reflexivity.
Qed.

(** An invariant of the loop body is an invariant of the loop. *)
Lemma for_range_invariant {S : Type} (P : S -> Prop) (n : Z) (body : S -> S) :
  (forall w, P w -> P (body w)) ->
  forall w, P w -> P (Py.for_range n body w).
Proof.
  intros Hbody w Hw. unfold Py.for_range.
  induction (Z.to_nat n) as [|m IH]; simpl; auto.
Qed.

(** ** The spiral walk *)

Section SpiralFacts.

Context {E : External}.
Variable step_distance : float.
Variable N : Z.

Import HexSearch.

Lemma emitted_step_to (d : float) (b : Z) (w : walk) :
  emitted (step_to d b w) = emitted w.
Proof. reflexivity. Qed.

Lemma emitted_append_loc (w : walk) : emitted (append_loc w) = emitted w + 1.
Proof.
  unfold emitted, append_loc; simpl. rewrite length_app; simpl. lia.
Qed.

Lemma emitted_for_range (k n : Z) (body : walk -> walk) :
  (forall w, emitted (body w) = emitted w + k) ->
  0 <= n ->
  forall w, emitted (Py.for_range n body w) = emitted w + n * k.
Proof.
  intros Hbody Hn w. revert w.
  pattern n. apply natlike_ind; [| |exact Hn].
  - intros w. rewrite for_range_nonpositive by lia. lia.
  - intros m Hm IH w. unfold Z.succ.
    rewrite for_range_succ by lia. rewrite Hbody, IH. lia.
Qed.

Lemma emitted_start (c : latlng) (l : location) : emitted (mkWalk c [l]) = 1.
Proof. reflexivity. Qed.

Create Rewrite HintDb emitted.
#[local] Hint Rewrite emitted_step_to emitted_append_loc emitted_start : emitted.

Ltac one_point :=
  let w := fresh "w" in
  intros w; autorewrite with emitted; lia.

Lemma emitted_upper_ring (ring : Z) (w : walk) :
  0 <= ring ->
  emitted (upper_ring step_distance ring w) = emitted w + 1 + 3 * ring.
Proof.
  intros Hr. unfold upper_ring.
  rewrite (emitted_for_range 1) by (one_point || lia).
  rewrite (emitted_for_range 1) by (one_point || lia).
  rewrite (emitted_for_range 1) by (one_point || lia).
  autorewrite with emitted. lia.
Qed.

Lemma emitted_upper_part (ring : Z) (w : walk) :
  0 <= ring -> ring <= N ->
  2 * emitted (upper_part step_distance N ring w)
  = 2 * emitted w + 2 * (N - ring) + 3 * (N * (N - 1) - ring * (ring - 1)).
Proof.
  funelim (upper_part step_distance N ring w); intros H0 HN.
  - match goal with
    | IH : 0 <= _ -> _ -> _ = _ |- _ => rewrite IH by lia
    end.
    rewrite emitted_upper_ring by lia. lia.
  - assert (ring = N) by lia. subst ring. lia.
Qed.

Lemma emitted_lower_ring (ring : Z) (w : walk) :
  1 <= ring ->
  emitted (lower_ring step_distance ring w)
  = emitted w + (if ring =? 1 then 1 else 3 * ring - 1).
Proof.
  intros Hr. unfold lower_ring.
  destruct (Z.eqb_spec ring 1) as [->|Hne].
  - autorewrite with emitted. lia.
  - autorewrite with emitted.
    rewrite (emitted_for_range 1) by (one_point || lia).
    rewrite (emitted_for_range 1) by (one_point || lia).
    rewrite (emitted_for_range 1) by (one_point || lia).
    lia.
Qed.

Lemma emitted_lower_part (ring : Z) (w : walk) :
  0 <= ring ->
  2 * emitted (lower_part step_distance ring w)
  = 2 * emitted w + (if ring =? 0 then 0 else 3 * ring * (ring + 1) - 2 * ring - 2).
Proof.
  funelim (lower_part step_distance ring w); intros H0.
  - match goal with
    | IH : 0 <= _ -> _ = _ |- _ => rewrite IH by lia
    end.
    rewrite emitted_lower_ring by lia.
    destruct (Z.eqb_spec ring 1), (Z.eqb_spec ring 0), (Z.eqb_spec (ring - 1) 0);
      lia.
  - assert (ring = 0) by lia. subst ring. rewrite Z.eqb_refl. lia.
Qed.

Lemma spiral_length (center : location) :
  1 <= N ->
  Z.of_nat (List.length (spiral step_distance N center)) = 1 + 3 * N * (N - 1).
Proof.
  intros HN. unfold spiral.
  destruct (Z.gtb_spec N 1) as [Hgt|Hle].
  - fold (emitted (lower_part step_distance (N - 1)
           (append_loc
              (step_to (xdist step_distance / 2)
                 (if odd_ring (N - 1) then WEST else EAST)
                 (step_to (ydist step_distance) SOUTH
                    (upper_part step_distance N 1
                       (mkWalk (latitude center, longitude center)
                          [mkLocation (latitude center) (longitude center) 0]))))))).
    apply (Z.mul_reg_l _ _ 2); [lia|].
    rewrite emitted_lower_part by lia.
    autorewrite with emitted.
    rewrite Z.mul_add_distr_l, emitted_upper_part by lia.
    autorewrite with emitted.
    destruct (Z.eqb_spec (N - 1) 0); lia.
  - assert (N = 1) by lia. subst N. reflexivity.
Qed.

End SpiralFacts.

(** A property of the walk that every move and every append keeps is kept
    by both halves of the spiral. *)
Section WalkInvariant.

Import HexSearch.

Context {E : External}.
Variable step_distance : float.
Variable N : Z.
Variable P : walk -> Prop.

Hypothesis P_step_to : forall d b w, P w -> P (step_to d b w).
Hypothesis P_append_loc : forall w, P w -> P (append_loc w).

Lemma upper_ring_invariant (ring : Z) (w : walk) :
  P w -> P (upper_ring step_distance ring w).
Proof.
  intros Hw. unfold upper_ring.
  repeat (apply for_range_invariant; [intros; auto|]). auto.
Qed.

Lemma upper_part_invariant (ring : Z) (w : walk) :
  P w -> P (upper_part step_distance N ring w).
Proof.
  funelim (upper_part step_distance N ring w); intros Hw; auto.
  match goal with IH : P _ -> P _ |- _ => apply IH end.
  now apply upper_ring_invariant.
Qed.

Lemma lower_ring_invariant (ring : Z) (w : walk) :
  P w -> P (lower_ring step_distance ring w).
Proof.
  intros Hw. unfold lower_ring.
  destruct (ring =? 1); [auto|].
  apply P_append_loc, P_step_to.
  repeat (apply for_range_invariant; [intros; auto|]). auto.
Qed.

Lemma lower_part_invariant (ring : Z) (w : walk) :
  P w -> P (lower_part step_distance ring w).
Proof.
  funelim (lower_part step_distance ring w); intros Hw; auto.
  match goal with IH : P _ -> P _ |- _ => apply IH end.
  now apply lower_ring_invariant.
Qed.

End WalkInvariant.

Section PlanFacts.

Context {E : External}.
Variable step_distance : float.
Variable N : Z.

Import HexSearch.

(** Every point of the raw spiral carries altitude 0. *)
Lemma spiral_at_sea_level (center : location) :
  Forall at_sea_level (spiral step_distance N center).
Proof.
  unfold spiral.
  set (P := fun w : walk => Forall at_sea_level (results w)).
  assert (Hstep : forall d b w, P w -> P (step_to d b w)) by (intros; assumption).
  assert (Happ : forall w, P w -> P (append_loc w)).
  { intros w Hw. unfold P, append_loc; simpl.
    apply Forall_app; split; [exact Hw|]. repeat constructor. }
  assert (H0 : P (mkWalk (latitude center, longitude center)
                    [mkLocation (latitude center) (longitude center) 0])).
  { repeat constructor. }
  change (P (if N >? 1
             then lower_part step_distance (N - 1)
                    (append_loc
                       (step_to (xdist step_distance / 2)
                          (if odd_ring (N - 1) then WEST else EAST)
                          (step_to (ydist step_distance) SOUTH
                             (upper_part step_distance N 1
                                (mkWalk (latitude center, longitude center)
                                   [mkLocation (latitude center)
                                      (longitude center) 0])))))
             else mkWalk (latitude center, longitude center)
                    [mkLocation (latitude center) (longitude center) 0])).
  destruct (N >? 1); [|exact H0].
  apply lower_part_invariant; auto.
  apply Happ, Hstep, Hstep.
  apply upper_part_invariant; auto.
Qed.

Lemma rotate_permutation (l : list location) : Permutation (rotate N l) l.
Proof.
  unfold rotate.
  destruct (N >=? 3); [|reflexivity].
  destruct (N =? 3); apply slice_rotate_permutation.
Qed.

Lemma zeroed_length (l : list location) :
  List.length (zeroed l) = List.length l.
Proof. unfold zeroed. now rewrite length_map, enumerate_length. Qed.

Lemma zeroed_nth_error (l : list location) (i : nat) (item : ScanItem) :
  nth_error (zeroed l) i = Some item ->
  step item = Z.of_nat i + 1 /\
  appears_seconds item = 0 /\ disappears_seconds item = 0 /\
  exists p, nth_error l i = Some p /\
            item_location item = mkLocation (latitude p) (longitude p) 0.
Proof.
  unfold zeroed. intros H.
  rewrite nth_error_map in H.
  destruct (nth_error (Py.enumerate 1 l) i) as [[k p]|] eqn:Hnth; [|discriminate].
  apply enumerate_nth_error in Hnth. destruct Hnth as [Hk Hp].
  cbn [fst snd] in *. injection H as <-.
  cbn [step appears_seconds disappears_seconds item_location fst snd].
  split; [lia|]. split; [reflexivity|]. split; [reflexivity|].
  exists p. auto.
Qed.

Lemma zeroed_locations_from (l : list location) (start : Z) :
  Forall at_sea_level l ->
  map item_location
    (map (fun sl : Z * location =>
            mkScanItem (fst sl)
              (mkLocation (latitude (snd sl)) (longitude (snd sl)) 0) 0 0)
         (Py.enumerate start l)) = l.
Proof.
  intros Hl. revert start.
  induction Hl as [|p l Hp Hl IH]; intros start; simpl; [reflexivity|].
  rewrite IH. destruct p as [la lo al]. unfold at_sea_level in Hp.
  simpl in *. now subst al.
Qed.

(** Zeroing keeps the order and the coordinates of points at altitude 0. *)
Lemma zeroed_locations (l : list location) :
  Forall at_sea_level l -> map item_location (zeroed l) = l.
Proof. apply zeroed_locations_from. Qed.

Lemma rotate_at_sea_level (l : list location) :
  Forall at_sea_level l -> Forall at_sea_level (rotate N l).
Proof.
  intros Hl. rewrite Forall_forall in *. intros x Hx.
  apply Hl. eapply Permutation_in; [apply rotate_permutation|exact Hx].
Qed.

(** The locations of the final plan are the rotated raw spiral. *)
Lemma generate_locations_locations (center : location) :
  map item_location (_generate_locations step_distance N center)
  = rotate N (spiral step_distance N center).
Proof.
  unfold _generate_locations.
  apply zeroed_locations, rotate_at_sea_level, spiral_at_sea_level.
Qed.

End PlanFacts.

(** ** Queues and the cached plan *)

Lemma drain_empty (q : queue) : drain q = [].
Proof. induction q as [|x q IH]; simpl; auto. Qed.

Lemma empty_queues_all_empty (s : scheduler) :
  Forall (fun q : queue => q = []) (queues (empty_queues s)).
Proof.
  unfold empty_queues; simpl.
  induction (queues s) as [|q qs IH]; simpl; constructor; auto.
  destruct q; [reflexivity|apply drain_empty].
Qed.

Lemma empty_queues_length (s : scheduler) :
  List.length (queues (empty_queues s)) = List.length (queues s).
Proof. unfold empty_queues; simpl. apply length_map. Qed.

Lemma generate_calls_app (evs evs' : list event) :
  generate_calls (evs ++ evs') = (generate_calls evs + generate_calls evs')%nat.
Proof. unfold generate_calls. now rewrite filter_app, length_app. Qed.

Lemma set_queues_same (s : scheduler) : set_queues (queues s) s = s.
Proof. now destruct s. Qed.

Section ScheduleFacts.

Context {E : External}.

(** The generators log warnings at most: they never re-enter themselves
    through [schedule]. *)
Lemma generate_locations_logs_no_call (s : scheduler) (center : location) :
  generate_calls (snd (_generate_locations s center)) = 0%nat.
Proof.
  unfold _generate_locations, SpawnOnlyHexSearch._generate_locations.
  destruct (class_of s); simpl; [reflexivity|].
  destruct (List.length _ =? 0)%nat; reflexivity.
Qed.

(** The generator reads the class and the two step settings only. *)
Lemma generate_locations_config (s s' : scheduler) (center : location) :
  class_of s' = class_of s ->
  step_distance s' = step_distance s ->
  step_limit s' = step_limit s ->
  _generate_locations s' center = _generate_locations s center.
Proof.
  intros Hk Hd Hn. unfold _generate_locations. now rewrite Hk, Hd, Hn.
Qed.

(** Pushing touches the queues and the log only. *)
Lemma put_all_frame (items : list ScanItem) (s : scheduler) (evs : list event) :
  let o := put_all items s evs in
  locations (final o) = locations s /\
  scan_location (final o) = scan_location s /\
  class_of (final o) = class_of s /\
  step_distance (final o) = step_distance s /\
  step_limit (final o) = step_limit s /\
  generate_calls (events o) = generate_calls evs.
Proof.
  revert s evs. induction items as [|x items IH]; intros s evs; simpl.
  - repeat split.
  - destruct (queues s) as [|q0 qs] eqn:Hq; simpl.
    + repeat split.
    + specialize (IH (set_queues ((q0 ++ [x]) :: qs) s) (evs ++ [LogDebug x])).
      simpl in IH. rewrite generate_calls_app in IH. simpl in IH.
      rewrite Nat.add_0_r in IH. exact IH.
Qed.

(** With a queue at index 0 the loop runs to its end and appends the
    items behind what the queue already held. *)
Lemma put_all_appends (items : list ScanItem) :
  forall (s : scheduler) (evs : list event) (q0 : queue) (qs : list queue),
  queues s = q0 :: qs ->
  put_all items s evs
  = mkOutcome (set_queues ((q0 ++ items) :: qs) s)
              (evs ++ map LogDebug items) None.
Proof.
  induction items as [|x items IH]; intros s evs q0 qs Hq; simpl.
  - rewrite (app_nil_r q0), (app_nil_r evs).
    destruct s; simpl in Hq; subst; reflexivity.
  - rewrite Hq.
    rewrite (IH _ _ (q0 ++ [x]) qs) by reflexivity.
    rewrite <- !app_assoc. simpl. reflexivity.
Qed.

Lemma schedule_unset (s : scheduler) :
  scan_location s = None ->
  schedule s
  = mkOutcome s
      [LogWarning "Cannot schedule work until scan location has been set"]
      None.
Proof. intros H. unfold schedule. now rewrite H. Qed.

Lemma schedule_miss (s : scheduler) (center : location) :
  scan_location s = Some center ->
  not_locations (locations s) = true ->
  schedule s
  = put_all (fst (_generate_locations s center))
      (set_locations (Some (fst (_generate_locations s center))) s)
      (CallGenerate :: snd (_generate_locations s center)).
Proof.
  intros Hc Hm. unfold schedule. rewrite Hc, Hm.
  now destruct (_generate_locations s center).
Qed.

Lemma schedule_hit (s : scheduler) (center : location) (item : ScanItem)
    (plan : list ScanItem) :
  scan_location s = Some center ->
  locations s = Some (item :: plan) ->
  schedule s = put_all (item :: plan) s [].
Proof. intros Hc Hl. unfold schedule. now rewrite Hc, Hl. Qed.

Lemma schedule_miss_calls (s : scheduler) (center : location) :
  scan_location s = Some center ->
  not_locations (locations s) = true ->
  generate_calls (events (schedule s)) = 1%nat /\
  locations (final (schedule s)) = Some (fst (_generate_locations s center)) /\
  scan_location (final (schedule s)) = Some center /\
  _generate_locations (final (schedule s)) center = _generate_locations s center.
Proof.
  intros Hc Hm. rewrite (schedule_miss s center Hc Hm).
  pose proof (put_all_frame (fst (_generate_locations s center))
                (set_locations (Some (fst (_generate_locations s center))) s)
                (CallGenerate :: snd (_generate_locations s center))) as F.
  cbv zeta in F. destruct F as (Fl & Fc & Fk & Fd & Fn & Fg).
  repeat split.
  - rewrite Fg. change (generate_calls (CallGenerate :: ?l))
      with (Datatypes.S (generate_calls l)).
    now rewrite generate_locations_logs_no_call.
  - rewrite Fl. reflexivity.
  - rewrite Fc. exact Hc.
  - apply generate_locations_config; [exact Fk|exact Fd|exact Fn].
Qed.

Lemma schedule_hit_calls (s : scheduler) (center : location) (item : ScanItem)
    (plan : list ScanItem) :
  scan_location s = Some center ->
  locations s = Some (item :: plan) ->
  generate_calls (events (schedule s)) = 0%nat /\
  locations (final (schedule s)) = Some (item :: plan).
Proof.
  intros Hc Hl. rewrite (schedule_hit s center item plan Hc Hl).
  pose proof (put_all_frame (item :: plan) s []) as F.
  cbv zeta in F. destruct F as (Fl & _ & _ & _ & _ & Fg).
  split; [exact Fg|]. now rewrite Fl.
Qed.

End ScheduleFacts.

(** ** The plan generator *)

(** C1. For every center and every step limit [N >= 1], the list the spiral
    walk has built just before the rotation holds exactly [1 + 3*N*(N-1)]
    points, and the rotation yields a permutation of that list: the same
    points, reordered. *)
Theorem spiral_size_and_rotation {E : External} (step_distance : float)
    (N : Z) (center : location) :
  1 <= N ->
  Z.of_nat (List.length (HexSearch.spiral step_distance N center))
  = 1 + 3 * N * (N - 1) /\
  Permutation (HexSearch.rotate N (HexSearch.spiral step_distance N center))
              (HexSearch.spiral step_distance N center).
Proof.
  intros HN. split.
  - now apply spiral_length.
  - apply rotate_permutation.
Qed.

Lemma spiral_size_and_rotation_witness :
  Z.of_nat (List.length
              (@HexSearch.spiral (Planar.env []) 0.070 4 center_40_75)) = 37 /\
  Permutation
    (HexSearch.rotate 4 (@HexSearch.spiral (Planar.env []) 0.070 4 center_40_75))
    (@HexSearch.spiral (Planar.env []) 0.070 4 center_40_75).
Proof.
  exact (@spiral_size_and_rotation (Planar.env []) 0.070 4 center_40_75
           ltac:(lia)).
Defined.

(** C2. The locations of the final plan, in order, are the raw spiral with
    its last 2 points moved to the front when the step limit is 3, with its
    last 7 points moved to the front when the step limit exceeds 3, and the
    raw spiral itself when the step limit is below 3.  The Python slices
    [rawPlan[-k:] + rawPlan[:-k]] do split the raw spiral into a front and
    a back of exactly [k] points. *)
Theorem rotation_law {E : External} (step_distance : float) (N : Z)
    (center : location) :
  let rawPlan := HexSearch.spiral step_distance N center in
  let final :=
    map item_location (HexSearch._generate_locations step_distance N center) in
  (N = 3 ->
     final = Py.slice_from (-2) rawPlan ++ Py.slice_to (-2) rawPlan /\
     exists front back,
       rawPlan = front ++ back /\ List.length back = 2%nat /\
       final = back ++ front) /\
  (N > 3 ->
     final = Py.slice_from (-7) rawPlan ++ Py.slice_to (-7) rawPlan /\
     exists front back,
       rawPlan = front ++ back /\ List.length back = 7%nat /\
       final = back ++ front) /\
  (N < 3 -> final = rawPlan).
Proof.
  intros rawPlan final. subst final.
  rewrite generate_locations_locations. fold rawPlan.
  assert (Hlen : 1 <= N ->
            Z.of_nat (List.length rawPlan) = 1 + 3 * N * (N - 1))
    by apply spiral_length.
  unfold HexSearch.rotate.
  split; [|split]; intros HN.
  - subst N. cbn [Z.geb Z.eqb Z.compare Pos.compare Pos.compare_cont Pos.eqb].
    split; [reflexivity|].
    destruct (slice_rotate_split 2 rawPlan) as (front & back & H1 & H2 & H3);
      [lia|rewrite Hlen; lia|].
    exists front, back. repeat split; [exact H1|lia|exact H3].
  - destruct (Z.geb_spec N 3); [|lia].
    destruct (Z.eqb_spec N 3); [lia|].
    split; [reflexivity|].
    destruct (slice_rotate_split 7 rawPlan) as (front & back & H1 & H2 & H3);
      [lia|rewrite Hlen; nia|].
    exists front, back. repeat split; [exact H1|lia|exact H3].
  - destruct (Z.geb_spec N 3); [lia|reflexivity].
Qed.

Lemma rotation_law_witness :
  map item_location
    (@HexSearch._generate_locations (Planar.env []) 0.070 3 center_40_75)
  = Py.slice_from (-2) (@HexSearch.spiral (Planar.env []) 0.070 3 center_40_75)
    ++ Py.slice_to (-2) (@HexSearch.spiral (Planar.env []) 0.070 3 center_40_75).
Proof.
  exact (proj1 (proj1 (@rotation_law (Planar.env []) 0.070 3 center_40_75)
                  eq_refl)).
Defined.

(** C9, as the code has it.  With step limit 1 the plan generator returns
    exactly one item: step 1, both time fields 0, at the latitude and the
    longitude of the center and at altitude 0.  Its location is the center
    itself exactly when the center's altitude is 0. *)
Theorem single_ring_plan {E : External} (step_distance : float)
    (center : location) :
  let item :=
    mkScanItem 1 (mkLocation (latitude center) (longitude center) 0) 0 0 in
  HexSearch._generate_locations step_distance 1 center = [item] /\
  (item_location item = center <-> altitude center = 0).
Proof.
  split; [reflexivity|].
  destruct center as [la lo al]; simpl. split.
  - intros H. now injection H.
  - intros ->. reflexivity.
Qed.

(** C9 as stated fails at a center above sea level: the single item sits at
    altitude 0, not at the center. *)
Lemma single_ring_plan_counterexample :
  exists item,
    @HexSearch._generate_locations (Planar.env []) 0.070 1 center_40_75_high
    = [item] /\
    step item = 1 /\
    item_location item = mkLocation 40 (-75) 0 /\
    item_location item <> center_40_75_high.
Proof.
  eexists. split; [reflexivity|].
  split; [reflexivity|]. split; [reflexivity|].
  simpl. unfold center_40_75_high. intros H. discriminate H.
Qed.

(** ** The spawnpoint filter *)

(** What survives a filter sits no earlier in the original list, and the
    survivors keep their relative order. *)
Lemma filter_nth_error {A : Type} (f : A -> bool) (l : list A) :
  forall (i : nat) (x : A),
  nth_error (filter f l) i = Some x ->
  exists j, (i <= j)%nat /\ nth_error l j = Some x.
Proof.
  induction l as [|a l IH]; intros i x H; simpl in H.
  - destruct i; discriminate.
  - destruct (f a).
    + destruct i as [|i]; simpl in H.
      * exists 0%nat. split; [lia|exact H].
      * destruct (IH i x H) as (j & Hj & Hn).
        exists (Datatypes.S j). split; [lia|exact Hn].
    + destruct (IH i x H) as (j & Hj & Hn).
      exists (Datatypes.S j). split; [lia|exact Hn].
Qed.

Lemma any_spawnpoints_in_range_spec {E : External} (l : location)
    (spawnpoints : list latlng) :
  SpawnOnlyHexSearch._any_spawnpoints_in_range l spawnpoints = true
  <-> has_spawnpoint_within_70m l spawnpoints.
Proof.
  unfold SpawnOnlyHexSearch._any_spawnpoints_in_range, has_spawnpoint_within_70m.
  apply existsb_exists.
Qed.

(** C6. Of the items of the generated plan, the filtering variant keeps
    exactly those with a returned spawnpoint within 70 meters of their
    location, by the distance [geopy] reports: a kept item has such a
    point, a removed item has none, and the kept items stay in plan order. *)
Theorem filter_keeps_items_in_range {E : External} (step_distance : float)
    (N : Z) (center : location) (item : ScanItem) :
  In item (HexSearch._generate_locations step_distance N center) ->
  let spawnpoints := SpawnOnlyHexSearch.spawnpoints_of N center in
  let kept :=
    fst (SpawnOnlyHexSearch._generate_locations step_distance N center) in
  (In item kept <-> has_spawnpoint_within_70m (item_location item) spawnpoints) /\
  (~ In item kept ->
     forall p, In p spawnpoints ->
       (distance_meters (item_location item) p <=? 70)%float = false) /\
  kept = filter (fun it => SpawnOnlyHexSearch._any_spawnpoints_in_range
                             (item_location it) spawnpoints)
                (HexSearch._generate_locations step_distance N center).
Proof.
  intros Hin spawnpoints kept.
  assert (Hiff : In item kept <->
                 has_spawnpoint_within_70m (item_location item) spawnpoints).
  { subst kept. unfold SpawnOnlyHexSearch._generate_locations. simpl.
    rewrite filter_In, any_spawnpoints_in_range_spec. tauto. }
  split; [exact Hiff|]. split; [|reflexivity].
  intros Hout p Hp.
  destruct (distance_meters (item_location item) p <=? 70)%float eqn:Hd;
    [|reflexivity].
  exfalso. apply Hout, Hiff. exists p. auto.
Qed.

Lemma filter_keeps_items_in_range_witness :
  In west_item
     (@HexSearch._generate_locations (Planar.env [west_neighbour]) 0.070 2
        center_40_75) /\
  (In west_item
      (fst (@SpawnOnlyHexSearch._generate_locations
              (Planar.env [west_neighbour]) 0.070 2 center_40_75))
   <-> @has_spawnpoint_within_70m (Planar.env [west_neighbour])
         (item_location west_item)
         (@SpawnOnlyHexSearch.spawnpoints_of (Planar.env [west_neighbour]) 2
            center_40_75)).
Proof.
  assert (H : In west_item
                (@HexSearch._generate_locations (Planar.env [west_neighbour])
                   0.070 2 center_40_75)).
  { right. left. reflexivity. }
  exact (conj H
           (proj1 (@filter_keeps_items_in_range (Planar.env [west_neighbour])
                     0.070 2 center_40_75 west_item H))).
Defined.

(** C7, as the code has it.  In the plan of the spiral generator the i-th
    item has step i and both time fields 0.  The filtering variant returns
    kept items as they are: each still carries the step it has in the
    unfiltered plan, which is at least, and can exceed, its position in the
    filtered plan; its time fields are 0. *)
Theorem plan_steps {E : External} (step_distance : float) (N : Z)
    (center : location) :
  let plain := HexSearch._generate_locations step_distance N center in
  let kept :=
    fst (SpawnOnlyHexSearch._generate_locations step_distance N center) in
  (forall (i : nat) (item : ScanItem),
     nth_error plain i = Some item ->
     step item = Z.of_nat i + 1 /\
     appears_seconds item = 0 /\ disappears_seconds item = 0) /\
  (forall (i : nat) (item : ScanItem),
     nth_error kept i = Some item ->
     nth_error plain (Z.to_nat (step item - 1)) = Some item /\
     Z.of_nat i + 1 <= step item /\
     appears_seconds item = 0 /\ disappears_seconds item = 0).
Proof.
  intros plain kept.
  assert (Hplain : forall i item, nth_error plain i = Some item ->
            step item = Z.of_nat i + 1 /\
            appears_seconds item = 0 /\ disappears_seconds item = 0).
  { intros i item H. subst plain. unfold HexSearch._generate_locations in H.
    apply zeroed_nth_error in H. tauto. }
  split; [exact Hplain|].
  intros i item H. subst kept.
  unfold SpawnOnlyHexSearch._generate_locations in H. simpl in H.
  apply filter_nth_error in H. destruct H as (j & Hij & Hj).
  destruct (Hplain j item Hj) as (Hs & Ha & Hd).
  replace (Z.to_nat (step item - 1)) with j by lia.
  repeat split; [exact Hj|lia|exact Ha|exact Hd].
Qed.

(** Whatever the geodesy, once the first item of the unfiltered plan is out
    of range of every spawnpoint, no kept item carries step 1. *)
Lemma first_removed_shifts_steps {E : External} (step_distance : float)
    (N : Z) (center : location) (first : ScanItem) :
  nth_error (HexSearch._generate_locations step_distance N center) 0
  = Some first ->
  SpawnOnlyHexSearch._any_spawnpoints_in_range (item_location first)
    (SpawnOnlyHexSearch.spawnpoints_of N center) = false ->
  forall (i : nat) (item : ScanItem),
    nth_error
      (fst (SpawnOnlyHexSearch._generate_locations step_distance N center)) i
    = Some item ->
    2 <= step item.
Proof.
  intros Hfirst Hout i item H.
  assert (Hin : In item
                  (fst (SpawnOnlyHexSearch._generate_locations
                          step_distance N center)))
    by (eapply nth_error_In; exact H).
  unfold SpawnOnlyHexSearch._generate_locations in H, Hin. simpl in H, Hin.
  apply filter_In in Hin. destruct Hin as [_ Hrange].
  apply filter_nth_error in H. destruct H as (j & Hij & Hj).
  destruct j as [|j].
  - rewrite Hfirst in Hj. injection Hj as <-.
    rewrite Hout in Hrange. discriminate.
  - unfold HexSearch._generate_locations in Hj.
    apply zeroed_nth_error in Hj. lia.
Qed.

Lemma plan_steps_witness :
  step west_item = Z.of_nat 1 + 1 /\
  appears_seconds west_item = 0 /\ disappears_seconds west_item = 0.
Proof.
  exact (proj1 (@plan_steps (Planar.env [west_neighbour]) 0.070 2 center_40_75)
           1%nat west_item eq_refl).
Defined.

(** C7 as stated fails in the filtering variant: with the one known
    spawnpoint a column west of the center, the only item kept is the
    second of the spiral, and it is emitted first with step 2. *)
Lemma plan_steps_counterexample :
  exists item,
    fst (@SpawnOnlyHexSearch._generate_locations
           (Planar.env [west_neighbour]) 0.070 2 center_40_75) = [item] /\
    step item = 2.
Proof. eexists. split; vm_compute; reflexivity. Qed.

(** ** The scheduler *)

(** C3. From any state, [location_changed(newLoc)] stores [newLoc] as the
    center, leaves every queue empty and forgets the cached plan, and the
    next [schedule()] enters the plan generator, exactly once.  No premise
    relates [newLoc] to the center stored before, so this covers a new
    center equal to the old one. *)
Theorem location_changed_invalidates {E : External} (s : scheduler)
    (newLoc : location) :
  let s' := location_changed s newLoc in
  scan_location s' = Some newLoc /\
  Forall (fun q : queue => q = []) (queues s') /\
  List.length (queues s') = List.length (queues s) /\
  locations s' = None /\
  generate_calls (events (schedule s')) = 1%nat.
Proof.
  intros s'. subst s'. unfold location_changed.
  split; [reflexivity|].
  split; [apply (empty_queues_all_empty (set_scan_location (Some newLoc) s))|].
  split; [apply (empty_queues_length (set_scan_location (Some newLoc) s))|].
  split; [reflexivity|].
  now apply (schedule_miss_calls _ newLoc).
Qed.

(** C8. With no center set, [schedule()] logs one warning and returns
    without raising; the plan generator is not entered and the object,
    every queue included, is left as it was. *)
Theorem schedule_without_center {E : External} (s : scheduler) :
  scan_location s = None ->
  let o := schedule s in
  events o
  = [LogWarning "Cannot schedule work until scan location has been set"] /\
  raised o = None /\
  generate_calls (events o) = 0%nat /\
  queues (final o) = queues s /\
  final o = s.
Proof.
  intros H o. subst o. rewrite (schedule_unset s H). simpl.
  repeat split.
Qed.

Lemma schedule_without_center_witness :
  events (@schedule (Planar.env []) never_located)
  = [LogWarning "Cannot schedule work until scan location has been set"] /\
  raised (@schedule (Planar.env []) never_located) = None /\
  generate_calls (events (@schedule (Planar.env []) never_located)) = 0%nat /\
  queues (final (@schedule (Planar.env []) never_located))
  = queues never_located /\
  final (@schedule (Planar.env []) never_located) = never_located.
Proof.
  exact (@schedule_without_center (Planar.env []) never_located eq_refl).
Defined.

(** C4, as the code has it.  When the center is set and the cached plan is
    a non-empty list, [schedule()] does not enter the plan generator and
    leaves the cached plan as it is; given a queue at index 0 it returns
    without raising, having appended exactly the cached items to it. *)
Theorem schedule_reuses_cached_plan {E : External} (s : scheduler)
    (center : location) (item : ScanItem) (plan : list ScanItem) :
  scan_location s = Some center ->
  locations s = Some (item :: plan) ->
  let o := schedule s in
  generate_calls (events o) = 0%nat /\
  locations (final o) = Some (item :: plan) /\
  forall (q0 : queue) (qs : list queue),
    queues s = q0 :: qs ->
    raised o = None /\ queues (final o) = (q0 ++ item :: plan) :: qs.
Proof.
  intros Hc Hl o. subst o.
  destruct (schedule_hit_calls s center item plan Hc Hl) as [Hg Hp].
  split; [exact Hg|]. split; [exact Hp|].
  intros q0 qs Hq.
  rewrite (schedule_hit s center item plan Hc Hl).
  rewrite (put_all_appends (item :: plan) s [] q0 qs Hq). simpl.
  split; reflexivity.
Qed.

Lemma schedule_reuses_cached_plan_witness :
  generate_calls (events (@schedule (Planar.env []) planned_once)) = 0%nat /\
  locations (final (@schedule (Planar.env []) planned_once))
  = Some [mkScanItem 1 center_40_75 0 0] /\
  forall (q0 : queue) (qs : list queue),
    queues planned_once = q0 :: qs ->
    raised (@schedule (Planar.env []) planned_once) = None /\
    queues (final (@schedule (Planar.env []) planned_once))
    = (q0 ++ [mkScanItem 1 center_40_75 0 0]) :: qs.
Proof.
  exact (@schedule_reuses_cached_plan (Planar.env []) planned_once
           center_40_75 (mkScanItem 1 center_40_75 0 0) [] eq_refl eq_refl).
Defined.

(** C4 as stated fails when the plan cached by the previous [schedule()] is
    the empty list: the next call enters the generator again. *)
Lemma schedule_reuses_cached_plan_counterexample :
  scan_location filtered_to_nothing = Some center_40_75 /\
  locations filtered_to_nothing = Some [] /\
  generate_calls (events (@schedule (Planar.env []) filtered_to_nothing))
  = 1%nat.
Proof. vm_compute. repeat split. Qed.

(** C5, as the code has it.  When the center is set and there is a queue at
    index 0, [schedule()] returns without raising, keeps the plan it pushed
    as the cached plan, and appends every item of that plan, in plan order,
    behind whatever the queue held: a queue that was empty then yields
    exactly the plan.  For center (40.0, -75.0, 0), step limit 2 and dense
    coverage, starting from one empty queue, the queue ends with 7 items,
    steps 1 to 7 in order, the first at the center, all time fields 0. *)
Theorem schedule_pushes_plan {E : External} :
  (forall (s : scheduler) (center : location) (q0 : queue) (qs : list queue),
     scan_location s = Some center ->
     queues s = q0 :: qs ->
     let o := schedule s in
     raised o = None /\
     locations (final o) = Some (plan_to_push s center) /\
     queues (final o) = (q0 ++ plan_to_push s center) :: qs /\
     (q0 = [] -> queues (final o) = plan_to_push s center :: qs)) /\
  (let o := schedule (located HexSearchClass 2) in
   raised o = None /\
   exists q,
     queues (final o) = [q] /\
     locations (final o) = Some q /\
     map step q = [1; 2; 3; 4; 5; 6; 7] /\
     nth_error q 0 = Some (mkScanItem 1 center_40_75 0 0) /\
     map appears_seconds q = [0; 0; 0; 0; 0; 0; 0] /\
     map disappears_seconds q = [0; 0; 0; 0; 0; 0; 0]).
Proof.
  split.
  - intros s center q0 qs Hc Hq o.
    assert (H : raised o = None /\
                locations (final o) = Some (plan_to_push s center) /\
                queues (final o) = (q0 ++ plan_to_push s center) :: qs).
    { subst o. unfold plan_to_push.
      destruct (not_locations (locations s)) eqn:Hm.
      - rewrite (schedule_miss s center Hc Hm).
        rewrite (put_all_appends _ _ _ q0 qs) by exact Hq.
        simpl. repeat split.
      - destruct (locations s) as [[|item plan]|] eqn:Hl; try discriminate.
        rewrite (schedule_hit s center item plan Hc Hl).
        rewrite (put_all_appends _ _ _ q0 qs Hq). simpl.
        rewrite Hl. repeat split. }
    destruct H as (Hr & Hl & Hqs).
    repeat split; try assumption.
    intros ->. exact Hqs.
  - vm_compute. split; [reflexivity|].
    eexists. repeat split.
Qed.

Lemma schedule_pushes_plan_witness :
  raised (@schedule (Planar.env []) planned_once) = None /\
  locations (final (@schedule (Planar.env []) planned_once))
  = Some (@plan_to_push (Planar.env []) planned_once center_40_75) /\
  queues (final (@schedule (Planar.env []) planned_once))
  = ([mkScanItem 1 center_40_75 0 0]
       ++ @plan_to_push (Planar.env []) planned_once center_40_75) :: [] /\
  ([mkScanItem 1 center_40_75 0 0] = [] ->
   queues (final (@schedule (Planar.env []) planned_once))
   = @plan_to_push (Planar.env []) planned_once center_40_75 :: []).
Proof.
  exact (proj1 (@schedule_pushes_plan (Planar.env [])) planned_once
           center_40_75 [mkScanItem 1 center_40_75 0 0] [] eq_refl eq_refl).
Defined.

(** C5 as stated fails when the queue is not empty at the call: after a
    second [schedule()] the queue yields the one-item plan twice. *)
Lemma schedule_pushes_plan_counterexample :
  scan_location planned_once = Some center_40_75 /\
  locations planned_once = Some [mkScanItem 1 center_40_75 0 0] /\
  queues planned_once = [[mkScanItem 1 center_40_75 0 0]] /\
  locations (final (@schedule (Planar.env []) planned_once))
  = Some [mkScanItem 1 center_40_75 0 0] /\
  queues (final (@schedule (Planar.env []) planned_once))
  = [[mkScanItem 1 center_40_75 0 0; mkScanItem 1 center_40_75 0 0]].
Proof. vm_compute. repeat split. Qed.

(** While the generator returns the empty plan the cache never counts as
    filled, however often [schedule] runs. *)
Lemma schedule_times_empty {E : External} (s : scheduler) (center : location) :
  scan_location s = Some center ->
  not_locations (locations s) = true ->
  fst (_generate_locations s center) = [] ->
  forall n : nat,
    scan_location (schedule_times n s) = Some center /\
    not_locations (locations (schedule_times n s)) = true /\
    _generate_locations (schedule_times n s) center
    = _generate_locations s center.
Proof.
  intros Hc Hm Hgen n. induction n as [|n IH].
  - simpl. auto.
  - destruct IH as (IHc & IHm & IHg).
    change (schedule_times (Datatypes.S n) s)
      with (final (schedule (schedule_times n s))).
    destruct (schedule_miss_calls (schedule_times n s) center IHc IHm)
      as (_ & Hl & Hc' & Hg').
    split; [exact Hc'|]. split.
    + rewrite Hl, IHg, Hgen. reflexivity.
    + now rewrite Hg'.
Qed.

(** C10. When the cached plan is the empty list, [schedule()] behaves as if
    nothing were cached and enters the plan generator; as long as the
    generator returns the empty plan, so does every later call.  In any
    state with a center, the generator is skipped exactly when the cached
    plan is a non-empty list. *)
Theorem empty_plan_is_regenerated {E : External} (s : scheduler)
    (center : location) :
  scan_location s = Some center ->
  locations s = Some [] ->
  schedule s = schedule (set_locations None s) /\
  generate_calls (events (schedule s)) = 1%nat /\
  (fst (_generate_locations s center) = [] ->
   forall n : nat,
     generate_calls (events (schedule (schedule_times n s))) = 1%nat /\
     locations (schedule_times (Datatypes.S n) s) = Some []) /\
  (forall (t : scheduler) (c : location),
     scan_location t = Some c ->
     (generate_calls (events (schedule t)) = 0%nat
      <-> exists item plan, locations t = Some (item :: plan))).
Proof.
  intros Hc Hl.
  assert (Hm : not_locations (locations s) = true) by now rewrite Hl.
  split; [|split; [|split]].
  - unfold schedule. simpl. rewrite Hc, Hl. reflexivity.
  - apply (schedule_miss_calls s center Hc Hm).
  - intros Hgen n.
    destruct (schedule_times_empty s center Hc Hm Hgen n) as (Hcn & Hmn & Hgn).
    destruct (schedule_miss_calls (schedule_times n s) center Hcn Hmn)
      as (Hcalls & Hloc & _).
    split; [exact Hcalls|].
    change (schedule_times (Datatypes.S n) s)
      with (final (schedule (schedule_times n s))).
    now rewrite Hloc, Hgn, Hgen.
  - intros t c Ht. split.
    + intros Hcalls.
      destruct (not_locations (locations t)) eqn:Hmt.
      * destruct (schedule_miss_calls t c Ht Hmt) as (H1 & _).
        rewrite H1 in Hcalls. discriminate.
      * destruct (locations t) as [[|item plan]|]; try discriminate.
        now exists item, plan.
    + intros (item & plan & Hlt).
      apply (schedule_hit_calls t c item plan Ht Hlt).
Qed.

Lemma empty_plan_is_regenerated_witness :
  @schedule (Planar.env []) filtered_to_nothing
  = @schedule (Planar.env []) (set_locations None filtered_to_nothing) /\
  generate_calls (events (@schedule (Planar.env []) filtered_to_nothing))
  = 1%nat /\
  (fst (@_generate_locations (Planar.env []) filtered_to_nothing center_40_75)
   = [] ->
   forall n : nat,
     generate_calls
       (events (@schedule (Planar.env [])
                  (@schedule_times (Planar.env []) n filtered_to_nothing)))
     = 1%nat /\
     locations (@schedule_times (Planar.env []) (Datatypes.S n)
                  filtered_to_nothing) = Some []) /\
  (forall (t : scheduler) (c : location),
     scan_location t = Some c ->
     (generate_calls (events (@schedule (Planar.env []) t)) = 0%nat
      <-> exists item plan, locations t = Some (item :: plan))).
Proof.
  exact (@empty_plan_is_regenerated (Planar.env []) filtered_to_nothing
           center_40_75 eq_refl eq_refl).
Defined.


(** * Further properties of the code *)

(** ** Shape of the generated plan *)

Lemma enumerate_nth_error_forward {A : Type} (l : list A) :
  forall (start : Z) (i : nat) (x : A),
  nth_error l i = Some x ->
  nth_error (Py.enumerate start l) i = Some (start + Z.of_nat i, x).
Proof.
  induction l as [|a l IH]; intros start i x H.
  - destruct i; discriminate.
  - destruct i as [|i]; simpl in H |- *.
    + injection H as ->. now rewrite Z.add_0_r.
    + rewrite (IH (start + 1) i x H). do 2 f_equal. lia.
Qed.

Lemma zeroed_nth_error_forward {E : External} (l : list location) (i : nat)
    (p : location) :
  nth_error l i = Some p ->
  nth_error (HexSearch.zeroed l) i
  = Some (mkScanItem (1 + Z.of_nat i)
            (mkLocation (latitude p) (longitude p) 0) 0 0).
Proof.
  intros H. unfold HexSearch.zeroed.
  rewrite nth_error_map, (enumerate_nth_error_forward l 1 i p H).
  reflexivity.
Qed.

Section SpiralShape.

Import HexSearch.

Context {E : External}.
Variable step_distance : float.
Variable N : Z.

Lemma spiral_length_small (center : location) :
  N <= 1 -> spiral step_distance N center
            = [mkLocation (latitude center) (longitude center) 0].
Proof.
  intros HN. unfold spiral.
  destruct (Z.gtb_spec N 1); [lia|reflexivity].
Qed.

(** The walk starts at the center and never overwrites what it appended. *)
Lemma spiral_head (center : location) :
  hd_error (spiral step_distance N center)
  = Some (mkLocation (latitude center) (longitude center) 0).
Proof.
  set (c := mkLocation (latitude center) (longitude center) 0).
  set (P := fun w : walk => hd_error (results w) = Some c).
  assert (Hstep : forall d b w, P w -> P (step_to d b w)) by (intros; assumption).
  assert (Happ : forall w, P w -> P (append_loc w)).
  { intros w Hw. unfold P, append_loc in *; simpl.
    destruct (results w); [discriminate|exact Hw]. }
  assert (H0 : P (mkWalk (latitude center, longitude center) [c])) by reflexivity.
  unfold spiral. fold c.
  change (P (if N >? 1
             then lower_part step_distance (N - 1)
                    (append_loc
                       (step_to (xdist step_distance / 2)
                          (if odd_ring (N - 1) then WEST else EAST)
                          (step_to (ydist step_distance) SOUTH
                             (upper_part step_distance N 1
                                (mkWalk (latitude center, longitude center)
                                   [c])))))
             else mkWalk (latitude center, longitude center) [c])).
  destruct (N >? 1); [|exact H0].
  apply lower_part_invariant; auto.
  apply Happ, Hstep, Hstep.
  apply upper_part_invariant; auto.
Qed.

Lemma generate_locations_length (center : location) :
  Z.of_nat (List.length (_generate_locations step_distance N center))
  = if N <=? 1 then 1 else 1 + 3 * N * (N - 1).
Proof.
  unfold _generate_locations.
  rewrite zeroed_length, (Permutation_length (rotate_permutation N _)).
  destruct (Z.leb_spec N 1) as [Hle|Hgt].
  - now rewrite spiral_length_small.
  - apply spiral_length. lia.
Qed.

(** Where the rotation puts the head of the raw list. *)
Lemma rotated_head (k : Z) (l : list location) (c : location) :
  0 < k -> k < Z.of_nat (List.length l) ->
  hd_error l = Some c ->
  nth_error (Py.slice_from (- k) l ++ Py.slice_to (- k) l) (Z.to_nat k)
  = Some c.
Proof.
  intros Hk Hlen Hhd.
  destruct (slice_rotate_split k l) as (front & back & Hl & Hback & ->);
    [lia|lia|].
  rewrite nth_error_app2 by lia.
  replace (Z.to_nat k - List.length back)%nat with 0%nat by lia.
  subst l. rewrite length_app in Hlen.
  destruct front as [|a front]; [simpl in Hlen; lia|].
  exact Hhd.
Qed.

End SpiralShape.

(** X1. Whatever the step limit, zero and negative ones included, the plan
    of the spiral generator is never empty: it has one item when the step
    limit is at most 1 and [1 + 3*N*(N-1)] items otherwise, the rotation
    changing nothing of that. *)
Theorem plan_length {E : External} (step_distance : float) (N : Z)
    (center : location) :
  Z.of_nat (List.length (HexSearch._generate_locations step_distance N center))
  = (if N <=? 1 then 1 else 1 + 3 * N * (N - 1)) /\
  HexSearch._generate_locations step_distance N center <> [].
Proof.
  pose proof (generate_locations_length step_distance N center) as H.
  split; [exact H|].
  intros Hnil. rewrite Hnil in H. cbn [List.length Z.of_nat] in H.
  destruct (Z.leb_spec N 1); nia.
Qed.

(** X2. The point at the latitude and longitude of the center is always in
    the plan, with both time fields 0: as step 1 when the step limit is
    below 3, as step 3 when it is 3 (two points are pulled in front of it),
    and as step 8 when it is above 3 (seven points are). *)
Theorem center_position {E : External} (step_distance : float) (N : Z)
    (center : location) :
  let c := mkLocation (latitude center) (longitude center) 0 in
  let plan := HexSearch._generate_locations step_distance N center in
  (N < 3 -> nth_error plan 0 = Some (mkScanItem 1 c 0 0)) /\
  (N = 3 -> nth_error plan 2 = Some (mkScanItem 3 c 0 0)) /\
  (N > 3 -> nth_error plan 7 = Some (mkScanItem 8 c 0 0)).
Proof.
  intros c plan. subst plan. unfold HexSearch._generate_locations.
  pose proof (spiral_head step_distance N center) as Hhd. fold c in Hhd.
  assert (Hlen : 1 <= N ->
            Z.of_nat (List.length (HexSearch.spiral step_distance N center))
            = 1 + 3 * N * (N - 1)) by apply spiral_length.
  assert (Hc : mkLocation (latitude c) (longitude c) 0 = c) by reflexivity.
  split; [|split]; intros HN.
  - rewrite (zeroed_nth_error_forward _ 0 c), Hc; [reflexivity|].
    unfold HexSearch.rotate. destruct (Z.geb_spec N 3); [lia|].
    destruct (HexSearch.spiral step_distance N center); [discriminate|exact Hhd].
  - rewrite (zeroed_nth_error_forward _ 2 c), Hc; [reflexivity|].
    unfold HexSearch.rotate. subst N.
    cbn [Z.geb Z.eqb Z.compare Pos.compare Pos.compare_cont Pos.eqb].
    apply (rotated_head 2); [lia|rewrite Hlen; lia|exact Hhd].
  - rewrite (zeroed_nth_error_forward _ 7 c), Hc; [reflexivity|].
    unfold HexSearch.rotate.
    destruct (Z.geb_spec N 3); [|lia]. destruct (Z.eqb_spec N 3); [lia|].
    apply (rotated_head 7); [lia|rewrite Hlen; nia|exact Hhd].
Qed.

(** ** Order of the emitted items *)

Lemma enumerated_items_sorted (l : list location) :
  forall start : Z,
  let items :=
    map (fun sl : Z * location =>
           mkScanItem (fst sl)
             (mkLocation (latitude (snd sl)) (longitude (snd sl)) 0) 0 0)
        (Py.enumerate start l) in
  StronglySorted earlier items /\ Forall (fun it => start <= step it) items.
Proof.
  induction l as [|p l IH]; intros start; simpl.
  - split; constructor.
  - destruct (IH (start + 1)) as [Hs Hf]. split.
    + constructor; [exact Hs|].
      revert Hf. apply Forall_impl. intros it Hit.
      unfold earlier; cbn [step]. lia.
    + constructor; [cbn [step fst]; lia|].
      revert Hf. apply Forall_impl. intros it Hit. lia.
Qed.

Lemma filter_strongly_sorted {A : Type} (R : A -> A -> Prop) (f : A -> bool)
    (l : list A) :
  StronglySorted R l -> StronglySorted R (filter f l).
Proof.
  induction 1 as [|a l Hs IH Hf]; simpl; [constructor|].
  destruct (f a); [|exact IH].
  constructor; [exact IH|].
  rewrite Forall_forall in *. intros x Hx.
  apply Hf. apply filter_In in Hx. tauto.
Qed.

(** X3. The steps of the plan strictly increase along it, in the plain
    variant and in the filtering one, so no two emitted items share a step
    and the filter never reorders; the filtered plan is no longer than the
    plain one. *)
Theorem plans_strictly_ordered {E : External} (step_distance : float) (N : Z)
    (center : location) :
  let plain := HexSearch._generate_locations step_distance N center in
  let kept :=
    fst (SpawnOnlyHexSearch._generate_locations step_distance N center) in
  StronglySorted earlier plain /\
  StronglySorted earlier kept /\
  NoDup (map step kept) /\
  (List.length kept <= List.length plain)%nat.
Proof.
  intros plain kept.
  assert (Hplain : StronglySorted earlier plain).
  { subst plain. unfold HexSearch._generate_locations, HexSearch.zeroed.
    apply (enumerated_items_sorted _ 1). }
  assert (Hkept : StronglySorted earlier kept).
  { subst kept. unfold SpawnOnlyHexSearch._generate_locations. simpl.
    now apply filter_strongly_sorted. }
  split; [exact Hplain|]. split; [exact Hkept|]. split.
  - clear Hplain. induction Hkept as [|a l Hs IH Hf]; simpl; constructor.
    + intros Hin. apply in_map_iff in Hin. destruct Hin as (b & Hb & Hin).
      rewrite Forall_forall in Hf. specialize (Hf b Hin).
      unfold earlier in Hf. lia.
    + exact IH.
  - subst kept. unfold SpawnOnlyHexSearch._generate_locations. simpl.
    apply filter_length_le.
Qed.

(** ** What the generators read *)

Lemma for_range_ext {S : Type} (n : Z) (f g : S -> S) :
  (forall w, f w = g w) -> forall w, Py.for_range n f w = Py.for_range n g w.
Proof.
  intros Hfg w. unfold Py.for_range.
  induction (Z.to_nat n) as [|m IH]; simpl; [reflexivity|].
  now rewrite IH, Hfg.
Qed.

Section CardinalMoves.

Import HexSearch.

Variables E1 E2 : External.
Variable step_distance : float.
Variable N : Z.
Hypothesis Hagree : agree_on_spiral_moves E1 E2 step_distance.

Lemma step_to_agree (d : float) (b : Z) (w : walk) :
  cardinal b -> spiral_distance step_distance d ->
  @step_to E1 d b w = @step_to E2 d b w.
Proof. intros Hb Hd. unfold step_to. now rewrite (Hagree _ d b Hb Hd). Qed.

Lemma bearing_cardinal (b : bool) (x y : Z) :
  cardinal x -> cardinal y -> cardinal (if b then x else y).
Proof. now destruct b. Qed.

Lemma cardinal_all :
  cardinal NORTH /\ cardinal EAST /\ cardinal SOUTH /\ cardinal WEST.
Proof. unfold cardinal; simpl; tauto. Qed.

Lemma spiral_distance_all :
  spiral_distance step_distance (xdist step_distance) /\
  spiral_distance step_distance (ydist step_distance) /\
  spiral_distance step_distance (xdist step_distance / 2)%float.
Proof. unfold spiral_distance; simpl; tauto. Qed.

Ltac agree_step :=
  repeat (rewrite step_to_agree;
          [ | first [ apply bearing_cardinal; apply cardinal_all
                    | apply cardinal_all ]
            | apply spiral_distance_all ]).

Lemma upper_ring_agree (ring : Z) (w : walk) :
  @upper_ring E1 step_distance ring w = @upper_ring E2 step_distance ring w.
Proof.
  unfold upper_ring.
  rewrite (for_range_ext ring
             (fun w => append_loc
                (@step_to E1 (xdist step_distance / 2)
                   (if odd_ring ring then EAST else WEST)
                   (@step_to E1 (ydist step_distance) SOUTH w)))
             (fun w => append_loc
                (@step_to E2 (xdist step_distance / 2)
                   (if odd_ring ring then EAST else WEST)
                   (@step_to E2 (ydist step_distance) SOUTH w))))
    by (intros; agree_step; reflexivity).
  f_equal.
  rewrite (for_range_ext ring
             (fun w => append_loc
                (@step_to E1 (xdist step_distance)
                   (if odd_ring ring then EAST else WEST) w))
             (fun w => append_loc
                (@step_to E2 (xdist step_distance)
                   (if odd_ring ring then EAST else WEST) w)))
    by (intros; agree_step; reflexivity).
  f_equal.
  rewrite (for_range_ext ring
             (fun w => append_loc
                (@step_to E1 (xdist step_distance / 2)
                   (if odd_ring ring then EAST else WEST)
                   (@step_to E1 (ydist step_distance) NORTH w)))
             (fun w => append_loc
                (@step_to E2 (xdist step_distance / 2)
                   (if odd_ring ring then EAST else WEST)
                   (@step_to E2 (ydist step_distance) NORTH w))))
    by (intros; agree_step; reflexivity).
  f_equal. agree_step. reflexivity.
Qed.

Lemma lower_ring_agree (ring : Z) (w : walk) :
  @lower_ring E1 step_distance ring w = @lower_ring E2 step_distance ring w.
Proof.
  unfold lower_ring. destruct (ring =? 1).
  - agree_step. reflexivity.
  - agree_step. do 2 f_equal.
    rewrite (for_range_ext (ring - 1)
               (fun w => append_loc
                  (@step_to E1 (xdist step_distance / 2)
                     (if odd_ring ring then WEST else EAST)
                     (@step_to E1 (ydist step_distance) NORTH w)))
               (fun w => append_loc
                  (@step_to E2 (xdist step_distance / 2)
                     (if odd_ring ring then WEST else EAST)
                     (@step_to E2 (ydist step_distance) NORTH w))))
      by (intros; agree_step; reflexivity).
    f_equal.
    rewrite (for_range_ext ring
               (fun w => append_loc
                  (@step_to E1 (xdist step_distance)
                     (if odd_ring ring then WEST else EAST) w))
               (fun w => append_loc
                  (@step_to E2 (xdist step_distance)
                     (if odd_ring ring then WEST else EAST) w)))
      by (intros; agree_step; reflexivity).
    f_equal.
    apply for_range_ext. intros; agree_step; reflexivity.
Qed.

Lemma upper_part_agree (ring : Z) (w : walk) :
  @upper_part E1 step_distance N ring w = @upper_part E2 step_distance N ring w.
Proof.
  funelim (@upper_part E1 step_distance N ring w).
  - rewrite (@upper_part_equation_1 E2).
    match goal with Heq : Z_lt_dec _ _ = _ |- _ => rewrite Heq end.
    cbn. rewrite <- upper_ring_agree. assumption.
  - rewrite (@upper_part_equation_1 E2).
    match goal with Heq : Z_lt_dec _ _ = _ |- _ => rewrite Heq end.
    reflexivity.
Qed.

Lemma lower_part_agree (ring : Z) (w : walk) :
  @lower_part E1 step_distance ring w = @lower_part E2 step_distance ring w.
Proof.
  funelim (@lower_part E1 step_distance ring w).
  - rewrite (@lower_part_equation_1 E2).
    match goal with Heq : Z_gt_dec _ _ = _ |- _ => rewrite Heq end.
    cbn. rewrite <- lower_ring_agree. assumption.
  - rewrite (@lower_part_equation_1 E2).
    match goal with Heq : Z_gt_dec _ _ = _ |- _ => rewrite Heq end.
    reflexivity.
Qed.

Lemma spiral_agree (center : location) :
  @spiral E1 step_distance N center = @spiral E2 step_distance N center.
Proof.
  unfold spiral. destruct (N >? 1); [|reflexivity].
  rewrite lower_part_agree. agree_step. now rewrite upper_part_agree.
Qed.

End CardinalMoves.

(** X4. The plan of the spiral generator depends on the collaborators only
    through [get_new_coords] at the four cardinal bearings 0, 90, 180, 270
    and at the three distances [xdist], [ydist], [xdist / 2]: two sets of
    collaborators that agree there yield the same plan, whatever else they
    do, and whatever their store, bounds and distance functions are. *)
Theorem plan_reads_cardinal_moves (E1 E2 : External) (step_distance : float)
    (N : Z) (center : location) :
  agree_on_spiral_moves E1 E2 step_distance ->
  @HexSearch._generate_locations E1 step_distance N center
  = @HexSearch._generate_locations E2 step_distance N center.
Proof.
  intros Hagree. unfold HexSearch._generate_locations.
  now rewrite (spiral_agree E1 E2 step_distance N Hagree).
Qed.

Lemma plan_reads_cardinal_moves_witness :
  @HexSearch._generate_locations (Planar.env []) 0.070 3 center_40_75
  = @HexSearch._generate_locations (Planar.env [west_neighbour]) 0.070 3
      center_40_75.
Proof.
  exact (plan_reads_cardinal_moves (Planar.env []) (Planar.env [west_neighbour])
           0.070 3 center_40_75 (fun c d b _ _ => eq_refl)).
Defined.

(** ** The spawnpoint test and the warning *)

(** X5. [_any_spawnpoints_in_range] reads its spawnpoints as a set: it is
    false on none, stays true when spawnpoints are added, and gives the
    same answer on two collections with the same members, in whatever
    order and however often they are listed. *)
Theorem spawnpoints_read_as_a_set {E : External} (l : location)
    (sp1 sp2 : list latlng) :
  SpawnOnlyHexSearch._any_spawnpoints_in_range l [] = false /\
  (incl sp1 sp2 ->
   SpawnOnlyHexSearch._any_spawnpoints_in_range l sp1 = true ->
   SpawnOnlyHexSearch._any_spawnpoints_in_range l sp2 = true) /\
  ((forall p, In p sp1 <-> In p sp2) ->
   SpawnOnlyHexSearch._any_spawnpoints_in_range l sp1
   = SpawnOnlyHexSearch._any_spawnpoints_in_range l sp2).
Proof.
  assert (Hmono : forall a b, incl a b ->
            SpawnOnlyHexSearch._any_spawnpoints_in_range l a = true ->
            SpawnOnlyHexSearch._any_spawnpoints_in_range l b = true).
  { intros a b Hincl Ha.
    apply any_spawnpoints_in_range_spec in Ha. destruct Ha as (p & Hp & Hd).
    apply any_spawnpoints_in_range_spec. exists p. split; [now apply Hincl|exact Hd]. }
  split; [reflexivity|]. split; [apply Hmono|].
  intros Hsame.
  destruct (SpawnOnlyHexSearch._any_spawnpoints_in_range l sp1) eqn:H1;
    destruct (SpawnOnlyHexSearch._any_spawnpoints_in_range l sp2) eqn:H2;
    try reflexivity.
  - rewrite (Hmono sp1 sp2) in H2; [discriminate| |exact H1].
    intros p Hp. now apply Hsame.
  - rewrite (Hmono sp2 sp1) in H1; [discriminate| |exact H2].
    intros p Hp. now apply Hsame.
Qed.

(** X6. The filtering variant warns exactly when the store returns no
    spawnpoint, and then its plan is empty.  When the store returns
    spawnpoints it logs nothing, also when none of them is in range of any
    item and the plan comes out empty all the same. *)
Theorem warning_iff_store_empty {E : External} (step_distance : float) (N : Z)
    (center : location) :
  let spawnpoints := SpawnOnlyHexSearch.spawnpoints_of N center in
  let result := SpawnOnlyHexSearch._generate_locations step_distance N center in
  (spawnpoints = [] ->
   result
   = ([], [LogWarning "No spawnpoints found in the specified area!  (Did you forget to run a normal scan in this area first?)"])) /\
  (spawnpoints <> [] -> snd result = []) /\
  ((forall item,
      In item (HexSearch._generate_locations step_distance N center) ->
      SpawnOnlyHexSearch._any_spawnpoints_in_range (item_location item)
        spawnpoints = false) ->
   fst result = []).
Proof.
  intros spawnpoints result. subst result.
  unfold SpawnOnlyHexSearch._generate_locations. fold spawnpoints.
  split; [|split].
  - intros ->. cbn [List.length Nat.eqb]. f_equal.
    induction (HexSearch._generate_locations step_distance N center)
      as [|a l IH]; [reflexivity|exact IH].
  - intros Hne. cbn [snd].
    destruct spawnpoints; [congruence|reflexivity].
  - intros Hout. cbn [fst].
    induction (HexSearch._generate_locations step_distance N center)
      as [|a l IH]; [reflexivity|].
    simpl. rewrite (Hout a) by (left; reflexivity).
    apply IH. intros item Hin. apply Hout. now right.
Qed.

(** ** Scheduling without a queue *)

Lemma put_all_no_queue {E : External} (items : list ScanItem) (s : scheduler)
    (evs : list event) :
  queues s = [] ->
  put_all items s evs
  = mkOutcome s evs (match items with [] => None | _ :: _ => Some IndexError end).
Proof. intros Hq. destruct items; simpl; [reflexivity|now rewrite Hq]. Qed.

(** X7. On a scheduler that holds no queue, [schedule()] with a center set
    raises [IndexError] exactly when the plan to push is non-empty.  By
    then the plan is already stored as the cached plan; nothing was pushed
    or logged at debug level, and the generator was entered once if the
    cache was empty or absent and not at all otherwise. *)
Theorem schedule_without_queue {E : External} (s : scheduler)
    (center : location) :
  queues s = [] ->
  scan_location s = Some center ->
  let o := schedule s in
  (raised o = Some IndexError <-> plan_to_push s center <> []) /\
  (raised o = None <-> plan_to_push s center = []) /\
  queues (final o) = [] /\
  locations (final o) = Some (plan_to_push s center) /\
  generate_calls (events o)
  = (if not_locations (locations s) then 1%nat else 0%nat) /\
  filter (fun e => match e with LogDebug _ => true | _ => false end) (events o)
  = [].
Proof.
  intros Hq Hc o. subst o. unfold plan_to_push.
  destruct (not_locations (locations s)) eqn:Hm.
  - rewrite (schedule_miss s center Hc Hm).
    rewrite put_all_no_queue by exact Hq. cbn [raised final events].
    pose proof (generate_locations_logs_no_call s center) as Hno.
    destruct (_generate_locations s center) as [plan logged] eqn:Hg.
    cbn [fst snd] in *.
    split; [|split; [|split; [|split; [|split]]]].
    + destruct plan; split; congruence.
    + destruct plan; split; congruence.
    + exact Hq.
    + reflexivity.
    + change (generate_calls (CallGenerate :: logged))
        with (Datatypes.S (generate_calls logged)). now rewrite Hno.
    + unfold _generate_locations, SpawnOnlyHexSearch._generate_locations in Hg.
      destruct (class_of s); injection Hg as _ <-; [reflexivity|].
      destruct (List.length _ =? 0)%nat; reflexivity.
  - destruct (locations s) as [[|item plan]|] eqn:Hl; try discriminate.
    rewrite (schedule_hit s center item plan Hc Hl).
    rewrite put_all_no_queue by exact Hq. cbn [raised final events].
    repeat split; congruence.
Qed.

Lemma schedule_without_queue_witness :
  (raised (@schedule (Planar.env []) unqueued) = Some IndexError
   <-> @plan_to_push (Planar.env []) unqueued center_40_75 <> []) /\
  (raised (@schedule (Planar.env []) unqueued) = None
   <-> @plan_to_push (Planar.env []) unqueued center_40_75 = []) /\
  queues (final (@schedule (Planar.env []) unqueued)) = [] /\
  locations (final (@schedule (Planar.env []) unqueued))
  = Some (@plan_to_push (Planar.env []) unqueued center_40_75) /\
  generate_calls (events (@schedule (Planar.env []) unqueued))
  = (if not_locations (locations unqueued) then 1%nat else 0%nat) /\
  filter (fun e => match e with LogDebug _ => true | _ => false end)
         (events (@schedule (Planar.env []) unqueued))
  = [].
Proof.
  exact (@schedule_without_queue (Planar.env []) unqueued center_40_75
           eq_refl eq_refl).
Defined.

(** ** Pausing, relocating and scheduling again *)

Lemma empty_queues_queues (s : scheduler) :
  queues (empty_queues s) = map (fun _ : queue => ([] : queue)) (queues s).
Proof.
  unfold empty_queues; simpl. apply map_ext.
  intros q. destruct q; [reflexivity|apply drain_empty].
Qed.

Lemma empty_queues_idempotent (s : scheduler) :
  empty_queues (empty_queues s) = empty_queues s.
Proof.
  destruct s as [k qs a c d n l]. unfold empty_queues, set_queues; cbn.
  f_equal. rewrite map_map. apply map_ext. intros q.
  destruct q as [|x q]; [reflexivity|].
  cbn [drain]. now rewrite (drain_empty q).
Qed.

Lemma map_const_nil_length (qs qs' : list queue) :
  List.length qs = List.length qs' ->
  map (fun _ : queue => ([] : queue)) qs = map (fun _ : queue => ([] : queue)) qs'.
Proof.
  revert qs'. induction qs as [|q qs IH]; intros [|q' qs'] H;
    simpl in *; try discriminate; [reflexivity|].
  f_equal. apply IH. lia.
Qed.

Lemma location_changed_setup (s t : scheduler) (l : location) :
  same_setup s t -> location_changed t l = location_changed s l.
Proof.
  intros (Hk & Ha & Hd & Hn & Hq).
  assert (Hqs : queues (empty_queues (set_scan_location (Some l) t))
                = queues (empty_queues (set_scan_location (Some l) s))).
  { rewrite !empty_queues_queues. now apply map_const_nil_length. }
  unfold location_changed, set_locations.
  rewrite Hqs. cbn. now rewrite Hk, Ha, Hd, Hn.
Qed.

Section Lifecycle.

Context {E : External}.

(** Pushing leaves the setup of the scheduler alone. *)
Lemma put_all_setup (items : list ScanItem) :
  forall (s : scheduler) (evs : list event),
  same_setup s (final (put_all items s evs)).
Proof.
  induction items as [|x items IH]; intros s evs; simpl.
  - unfold same_setup; tauto.
  - destruct (queues s) as [|q0 qs] eqn:Hq; simpl.
    + unfold same_setup; tauto.
    + destruct (IH (set_queues ((q0 ++ [x]) :: qs) s) (evs ++ [LogDebug x]))
        as (Hk & Ha & Hd & Hn & Hl).
      unfold same_setup. simpl in *. rewrite Hq. tauto.
Qed.

Lemma schedule_setup (s : scheduler) : same_setup s (final (schedule s)).
Proof.
  unfold schedule.
  destruct (scan_location s) as [center|]; [|unfold same_setup; simpl; tauto].
  destruct (not_locations (locations s)).
  - destruct (_generate_locations s center) as [plan logged].
    apply (put_all_setup plan (set_locations (Some plan) s)).
  - destruct (locations s) as [plan|]; [|unfold same_setup; simpl; tauto].
    apply put_all_setup.
Qed.

(** One [schedule()] with a center and a queue at index 0. *)
Lemma schedule_with_queue (s : scheduler) (center : location) (q0 : queue)
    (qs : list queue) :
  scan_location s = Some center ->
  queues s = q0 :: qs ->
  let o := schedule s in
  raised o = None /\
  scan_location (final o) = Some center /\
  locations (final o) = Some (plan_to_push s center) /\
  queues (final o) = (q0 ++ plan_to_push s center) :: qs /\
  events o
  = (if not_locations (locations s)
     then CallGenerate :: snd (_generate_locations s center) else [])
    ++ map LogDebug (plan_to_push s center) /\
  _generate_locations (final o) center = _generate_locations s center.
Proof.
  intros Hc Hq o. subst o. unfold plan_to_push.
  destruct (not_locations (locations s)) eqn:Hm.
  - rewrite (schedule_miss s center Hc Hm).
    rewrite (put_all_appends _ _ _ q0 qs) by exact Hq.
    simpl. repeat split. exact Hc.
  - destruct (locations s) as [[|item plan]|] eqn:Hl; try discriminate.
    rewrite (schedule_hit s center item plan Hc Hl).
    rewrite (put_all_appends _ _ _ q0 qs Hq). simpl.
    repeat split; assumption.
Qed.

Lemma plan_to_push_cached (s : scheduler) (center : location)
    (plan : list ScanItem) :
  plan <> [] -> locations s = Some plan -> plan_to_push s center = plan.
Proof.
  intros Hne Hl. unfold plan_to_push. rewrite Hl.
  destruct plan; [congruence|reflexivity].
Qed.

Lemma concat_repeat_succ {A : Type} (l : list A) (n : nat) :
  concat (repeat l (Datatypes.S n)) = concat (repeat l n) ++ l.
Proof.
  cbn [repeat]. rewrite repeat_cons, concat_app. simpl. now rewrite app_nil_r.
Qed.

End Lifecycle.

(** X8. [scanning_paused()] empties every queue and touches nothing else:
    the center and the cached plan stay, and a second call changes
    nothing.  A [schedule()] after it, on a scheduler with a center, a
    non-empty cached plan and a queue at index 0, therefore does not
    regenerate and leaves queue 0 holding exactly the cached plan, one
    debug record logged per item. *)
Theorem pause_keeps_plan {E : External} (s : scheduler) :
  let p := scanning_paused s in
  queues p = map (fun _ : queue => ([] : queue)) (queues s) /\
  scan_location p = scan_location s /\
  locations p = locations s /\
  scanning_paused p = p /\
  (forall (center : location) (item : ScanItem) (plan : list ScanItem)
          (q0 : queue) (qs : list queue),
     scan_location s = Some center ->
     locations s = Some (item :: plan) ->
     queues s = q0 :: qs ->
     raised (schedule p) = None /\
     events (schedule p) = map LogDebug (item :: plan) /\
     locations (final (schedule p)) = Some (item :: plan) /\
     queues (final (schedule p))
     = (item :: plan) :: map (fun _ : queue => ([] : queue)) qs).
Proof.
  intros p. subst p. unfold scanning_paused.
  split; [apply empty_queues_queues|].
  split; [reflexivity|]. split; [reflexivity|]. split.
  - apply empty_queues_idempotent.
  - intros center item plan q0 qs Hc Hl Hq.
    assert (Hqp : queues (empty_queues s)
                  = [] :: map (fun _ : queue => ([] : queue)) qs)
      by (rewrite empty_queues_queues, Hq; reflexivity).
    destruct (schedule_with_queue (empty_queues s) center [] _ Hc Hqp)
      as (Hr & _ & Hlo & Hqu & Hev & _).
    assert (Hplan : plan_to_push (empty_queues s) center = item :: plan)
      by (apply plan_to_push_cached; [discriminate|exact Hl]).
    rewrite Hplan in *.
    change (locations (empty_queues s)) with (locations s) in Hev.
    rewrite Hl in Hev. simpl in Hev.
    repeat split; assumption.
Qed.

Lemma pause_keeps_plan_witness :
  raised (@schedule (Planar.env []) (scanning_paused planned_once)) = None /\
  events (@schedule (Planar.env []) (scanning_paused planned_once))
  = map LogDebug [mkScanItem 1 center_40_75 0 0] /\
  locations (final (@schedule (Planar.env []) (scanning_paused planned_once)))
  = Some [mkScanItem 1 center_40_75 0 0] /\
  queues (final (@schedule (Planar.env []) (scanning_paused planned_once)))
  = [mkScanItem 1 center_40_75 0 0] :: map (fun _ : queue => ([] : queue)) [].
Proof.
  exact (proj2 (proj2 (proj2 (proj2
           (@pause_keeps_plan (Planar.env []) planned_once))))
           center_40_75 (mkScanItem 1 center_40_75 0 0) []
           [mkScanItem 1 center_40_75 0 0] [] eq_refl eq_refl eq_refl).
Defined.

(** X9. With a center, a queue at index 0 and a non-empty plan to push,
    calling [schedule()] over and over never raises and enters the
    generator on the first call at most: after [n] calls queue 0 holds
    what it held followed by [n] copies of the plan, so it grows by the
    length of the plan at every call. *)
Theorem repeated_schedule {E : External} (s : scheduler) (center : location)
    (q0 : queue) (qs : list queue) :
  scan_location s = Some center ->
  queues s = q0 :: qs ->
  plan_to_push s center <> [] ->
  forall n : nat,
    queues (schedule_times n s)
    = (q0 ++ concat (repeat (plan_to_push s center) n)) :: qs /\
    raised (schedule (schedule_times n s)) = None /\
    generate_calls (events (schedule (schedule_times (Datatypes.S n) s)))
    = 0%nat.
Proof.
  intros Hc Hq Hne.
  set (plan := plan_to_push s center) in *.
  assert (Inv : forall n,
            scan_location (schedule_times n s) = Some center /\
            queues (schedule_times n s) = (q0 ++ concat (repeat plan n)) :: qs /\
            plan_to_push (schedule_times n s) center = plan).
  { induction n as [|n (IHc & IHq & IHp)].
    - simpl. rewrite app_nil_r. auto.
    - change (schedule_times (Datatypes.S n) s)
        with (final (schedule (schedule_times n s))).
      destruct (schedule_with_queue _ center _ qs IHc IHq)
        as (_ & Hc' & Hl' & Hq' & _).
      rewrite IHp in Hl', Hq'.
      split; [exact Hc'|]. split.
      + rewrite Hq', concat_repeat_succ, app_assoc. reflexivity.
      + now apply plan_to_push_cached. }
  intros n. destruct (Inv n) as (Hcn & Hqn & Hpn).
  split; [exact Hqn|].
  destruct (schedule_with_queue _ center _ qs Hcn Hqn)
    as (Hr & Hc' & Hl' & _).
  split; [exact Hr|].
  change (schedule_times (Datatypes.S n) s)
    with (final (schedule (schedule_times n s))).
  rewrite Hpn in Hl'.
  destruct plan as [|item rest] eqn:Hplan; [congruence|].
  apply (schedule_hit_calls _ center item rest Hc' Hl').
Qed.

Lemma repeated_schedule_witness :
  queues (@schedule_times (Planar.env []) 3 (located HexSearchClass 2))
  = ([] ++ concat (repeat (@plan_to_push (Planar.env [])
                             (located HexSearchClass 2) center_40_75) 3))
    :: [] /\
  raised (@schedule (Planar.env [])
            (@schedule_times (Planar.env []) 3 (located HexSearchClass 2)))
  = None /\
  generate_calls
    (events (@schedule (Planar.env [])
               (@schedule_times (Planar.env []) 4
                  (located HexSearchClass 2))))
  = 0%nat.
Proof.
  exact (@repeated_schedule (Planar.env []) (located HexSearchClass 2)
           center_40_75 [] [] eq_refl eq_refl
           ltac:(vm_compute; discriminate) 3%nat).
Defined.

(** X10. [location_changed(center)] followed by [schedule()], on a scheduler
    with a queue at index 0, never raises: the generator is entered once,
    queue 0 ends up holding exactly the fresh plan for [center], whatever
    it held before, every other queue is empty, the plan is cached, and
    the log reads: the generator's warnings, then one debug record per
    item pushed, in order. *)
Theorem relocate_then_schedule {E : External} (s : scheduler)
    (center : location) (q0 : queue) (qs : list queue) :
  queues s = q0 :: qs ->
  let o := schedule (location_changed s center) in
  let plan := fst (_generate_locations s center) in
  raised o = None /\
  scan_location (final o) = Some center /\
  locations (final o) = Some plan /\
  queues (final o) = plan :: map (fun _ : queue => ([] : queue)) qs /\
  events o
  = CallGenerate :: snd (_generate_locations s center) ++ map LogDebug plan.
Proof.
  intros Hq o plan. subst o plan.
  set (t := location_changed s center).
  assert (Hc : scan_location t = Some center) by reflexivity.
  assert (Hqt : queues t = [] :: map (fun _ : queue => ([] : queue)) qs).
  { subst t. unfold location_changed. cbn [queues set_locations].
    rewrite empty_queues_queues. cbn [queues set_scan_location].
    rewrite Hq. reflexivity. }
  assert (Hg : _generate_locations t center = _generate_locations s center)
    by (apply generate_locations_config; reflexivity).
  destruct (schedule_with_queue t center [] _ Hc Hqt)
    as (Hr & Hc' & Hl & Hqu & Hev & _).
  assert (Hp : plan_to_push t center = fst (_generate_locations s center))
    by (unfold plan_to_push; subst t; cbn; now rewrite <- Hg).
  rewrite Hp in *.
  change (not_locations (locations t)) with true in Hev.
  cbv iota in Hev. rewrite Hg in Hev.
  repeat split; assumption.
Qed.

Lemma relocate_then_schedule_witness :
  raised (@schedule (Planar.env []) (location_changed stale center_40_75))
  = None /\
  scan_location
    (final (@schedule (Planar.env []) (location_changed stale center_40_75)))
  = Some center_40_75 /\
  locations
    (final (@schedule (Planar.env []) (location_changed stale center_40_75)))
  = Some (fst (@_generate_locations (Planar.env []) stale center_40_75)) /\
  queues
    (final (@schedule (Planar.env []) (location_changed stale center_40_75)))
  = fst (@_generate_locations (Planar.env []) stale center_40_75)
    :: map (fun _ : queue => ([] : queue)) [[west_item; west_item]] /\
  events (@schedule (Planar.env []) (location_changed stale center_40_75))
  = CallGenerate
    :: snd (@_generate_locations (Planar.env []) stale center_40_75)
       ++ map LogDebug
            (fst (@_generate_locations (Planar.env []) stale center_40_75)).
Proof.
  exact (@relocate_then_schedule (Planar.env []) stale center_40_75
           [west_item] [[west_item; west_item]] eq_refl).
Defined.

(** X11. [location_changed] wipes whatever came before it: called after
    another [location_changed], after [scanning_paused] or after a
    [schedule()] (one that raised included), it leaves the scheduler in
    the very state it would have reached without that earlier call. *)
Theorem location_changed_forgets {E : External} (s : scheduler)
    (a b : location) :
  location_changed (location_changed s a) b = location_changed s b /\
  location_changed (scanning_paused s) b = location_changed s b /\
  location_changed (final (schedule s)) b = location_changed s b.
Proof.
  split; [|split]; apply location_changed_setup.
  - unfold same_setup, location_changed; cbn.
    rewrite length_map. tauto.
  - unfold same_setup, scanning_paused, empty_queues; cbn.
    rewrite length_map. tauto.
  - apply schedule_setup.
Qed.

(** X12. A scheduler of the plain class never has an empty plan to push.
    Once [schedule()] has run with a center set, also when it raised for
    lack of a queue, the plan is cached for good: the next [schedule()]
    does not enter the generator. *)
Theorem hex_search_always_caches {E : External} (s : scheduler)
    (center : location) :
  class_of s = HexSearchClass ->
  scan_location s = Some center ->
  plan_to_push s center <> [] /\
  locations (final (schedule s)) = Some (plan_to_push s center) /\
  generate_calls (events (schedule (final (schedule s)))) = 0%nat.
Proof.
  intros Hk Hc.
  assert (Hgen : fst (_generate_locations s center) <> []).
  { unfold _generate_locations. rewrite Hk. cbn [fst]. intros Hnil.
    pose proof (generate_locations_length (step_distance s) (step_limit s)
                  center) as Hlen.
    rewrite Hnil in Hlen. cbn [List.length Z.of_nat] in Hlen.
    destruct (Z.leb_spec (step_limit s) 1); nia. }
  unfold plan_to_push.
  destruct (not_locations (locations s)) eqn:Hm.
  - destruct (schedule_miss_calls s center Hc Hm) as (_ & Hl & Hc' & _).
    split; [exact Hgen|]. split; [exact Hl|].
    destruct (fst (_generate_locations s center)) as [|item plan];
      [congruence|].
    apply (schedule_hit_calls _ center item plan Hc' Hl).
  - destruct (locations s) as [[|item plan]|] eqn:Hl; try discriminate.
    destruct (schedule_hit_calls s center item plan Hc Hl) as (_ & Hl').
    split; [discriminate|]. split; [exact Hl'|].
    assert (Hc' : scan_location (final (schedule s)) = Some center).
    { rewrite (schedule_hit s center item plan Hc Hl).
      pose proof (put_all_frame (item :: plan) s []) as F. cbv zeta in F.
      destruct F as (_ & Fc & _). now rewrite Fc. }
    apply (schedule_hit_calls _ center item plan Hc' Hl').
Qed.

Lemma hex_search_always_caches_witness :
  @plan_to_push (Planar.env []) unqueued center_40_75 <> [] /\
  locations (final (@schedule (Planar.env []) unqueued))
  = Some (@plan_to_push (Planar.env []) unqueued center_40_75) /\
  generate_calls
    (events (@schedule (Planar.env [])
               (final (@schedule (Planar.env []) unqueued))))
  = 0%nat.
Proof.
  exact (@hex_search_always_caches (Planar.env []) unqueued center_40_75
           eq_refl eq_refl).
Defined.
